(** * goa: the application core (application.go)

    A shallow embedding of [Application], its registration operations
    ([New], [Use], [SetErrorHandler], [Run]), the per-request closure built
    by [NewHTTPRouterHandle], and the two standard error handlers.

    Go code is effectful; the embedding passes state explicitly:
    - a request handler is a function on the request state [Context] whose
      result says how the call ended: it returned, it panicked, or it ended
      the process ([os.Exit]);
    - the registration operations act on the process store [World], which
      holds the object behind the [Application] pointer and the backing
      arrays of the middleware slice, so that the aliasing created by
      [chain := app.Middleware] is visible. *)

From stdpp Require Import base numbers list strings gmap fin_maps.
From Stdlib Require Import ZArith.

Local Open Scope Z_scope.
Local Open Scope string_scope.
Local Open Scope list_scope.

(** ** How a Go call ends *)

(** [S] is the state the call works on, [A] what it returns. Go has three
    ways out of a function: a normal return, a panic that unwinds the stack
    (deferred calls run), and [os.Exit] (the process is gone at once,
    deferred calls do not run). *)
Inductive Outcome (S A : Type) : Type :=
| Returned (a : A) (s : S)
| Panicked (v : string) (s : S)
| Exited (code : Z) (s : S).
Arguments Returned {S A} a s.
Arguments Panicked {S A} v s.
Arguments Exited {S A} code s.

Definition state_of {S A} (o : Outcome S A) : S :=
  match o with Returned _ s | Panicked _ s | Exited _ s => s end.

Definition exits {S A} (o : Outcome S A) : bool :=
  match o with Exited _ _ => true | _ => false end.

Definition panics {S A} (o : Outcome S A) : bool :=
  match o with Panicked _ _ => true | _ => false end.

Definition ret {S A} (a : A) : S -> Outcome S A := fun s => Returned a s.

Definition bind {S A B} (m : S -> Outcome S A) (k : A -> S -> Outcome S B)
  : S -> Outcome S B :=
  fun s =>
    match m s with
    | Returned a s' => k a s'
    | Panicked v s' => Panicked v s'
    | Exited code s' => Exited code s'
    end.

Notation "x <- m ;; k" := (bind m (fun x => k))
  (at level 100, m at next level, right associativity).
Notation "m ;;; k" := (bind m (fun _ => k))
  (at level 100, right associativity).

(** [defer f; body]: [f] runs when [body] returns and when it panics, not
    when the process exits. *)
Definition defer {S A} (f : S -> S) (body : S -> Outcome S A) : S -> Outcome S A :=
  fun s =>
    match body s with
    | Returned a s' => Returned a (f s')
    | Panicked v s' => Panicked v (f s')
    | Exited code s' => Exited code s'
    end.

(** A computation that reads no state and may panic (an index expression,
    a call through a func value). *)
Inductive Result (A : Type) : Type :=
| Ok (a : A)
| Panic (v : string).
Arguments Ok {A} a.
Arguments Panic {A} v.

(** ** Values *)

(** The double quote, for the JSON text built by [fmt.Sprintf]. *)
Definition dq : string := String (Ascii.ascii_of_nat 34) EmptyString.

(** What [json.Decoder.Decode] stores in an [interface{}]. *)
#[warnings="-register-all"]
Inductive value : Type :=
| VNil
| VBool (b : bool)
| VNumber (lit : string)
| VString (s : string)
| VArray (vs : list value)
| VObject (fields : list (string * value)).

(** Modelled from the spec: the error values the core tells apart.
    [BadRequestError] is declared in a file that is not among the sources;
    the spec calls it the client-caused failure kind and [application.go]
    finds it with a type assertion on the error value. Every other
    error value ([fmt.Errorf], decoder errors, handler errors) is an
    [ErrorString]. *)
Inductive error : Type :=
| BadRequestError (msg : string)
| ErrorString (msg : string).

(** [e.Error()] *)
Definition Error (e : error) : string :=
  match e with BadRequestError msg | ErrorString msg => msg end.

(** [fmt.Errorf] with a constant format. *)
Definition Errorf (msg : string) : error := ErrorString msg.

(** The type assertion of lines 180 and 194: is [e] a pointer to a
    [BadRequestError]? *)
Definition isBadRequestError (e : error) : bool :=
  match e with BadRequestError _ => true | ErrorString _ => false end.

(** Records sent to a log15 logger: level, message, key/value context. *)
Inductive Lvl : Type := LvlCrit | LvlError | LvlInfo.

Record LogRecord : Type := mkLog {
  logLvl : Lvl;
  logMsg : string;
  logCtx : list (string * string)
}.

(** ** Context *)

Module Ctx.
(** Modelled from the spec: [Context] ([context.go] is not among the
    sources). The spec lists a cancellation signal, path parameters, query
    parameters, the decoded payload, a response-written flag and a scoped
    logger. The record also holds what a handler reaches through the
    context: the response as sent so far ([Header], [RespStatus],
    [RespBody]), the error the connection answers a write with
    ([WriteErr], [None] while the client can be reached), and the records
    sent to the global logger [Log] during the request ([Logged]). *)
Record Context : Type := mk {
  Cancelled : bool;
  Logger : list (string * string);
  Params : gmap string string;
  Query : gmap string (list string);
  Payload : value;
  Header : gmap string (list string);
  RespStatus : Z;
  RespBody : string;
  Written : bool;
  WriteErr : option error;
  Logged : list LogRecord
}.

Definition setLogger (l : list (string * string)) (c : Context) : Context :=
  mk (Cancelled c) l (Params c) (Query c) (Payload c) (Header c)
     (RespStatus c) (RespBody c) (Written c) (WriteErr c) (Logged c).

Definition setHeader (h : gmap string (list string)) (c : Context) : Context :=
  mk (Cancelled c) (Logger c) (Params c) (Query c) (Payload c) h
     (RespStatus c) (RespBody c) (Written c) (WriteErr c) (Logged c).

Definition writeHeader (code : Z) (c : Context) : Context :=
  mk (Cancelled c) (Logger c) (Params c) (Query c) (Payload c) (Header c)
     code (RespBody c) true (WriteErr c) (Logged c).

Definition writeBody (body : string) (c : Context) : Context :=
  mk (Cancelled c) (Logger c) (Params c) (Query c) (Payload c) (Header c)
     (RespStatus c) body (Written c) (WriteErr c) (Logged c).

Definition addLog (r : LogRecord) (c : Context) : Context :=
  mk (Cancelled c) (Logger c) (Params c) (Query c) (Payload c) (Header c)
     (RespStatus c) (RespBody c) (Written c) (WriteErr c) (Logged c ++ [r]).

(** The [cancel] function returned by [context.WithCancel]. *)
Definition cancel (c : Context) : Context :=
  mk true (Logger c) (Params c) (Query c) (Payload c) (Header c)
     (RespStatus c) (RespBody c) (Written c) (WriteErr c) (Logged c).
End Ctx.
Abbreviation Context := Ctx.Context.

(** [Handler]: a func from a [Context] pointer to [error]. *)
Definition Handler : Type := Context -> Outcome Context (option error).

(** [ErrorHandler]: a func of a [Context] pointer and an [error]. *)
Definition ErrorHandler : Type := Context -> error -> Outcome Context unit.

(** Modelled from the spec: [Middleware] ([middleware.go] is not among the
    sources), "a transformation from Handler to Handler". *)
Definition Middleware : Type := Handler -> Handler.

(** Modelled from the spec: [NewContext]. The response-written flag starts
    false; [gctx] has just been created, so it is not cancelled. *)
Definition NewContext (connErr : option error)
    (params : gmap string string) (query : gmap string (list string))
    (payload : value) : Context :=
  Ctx.mk false [] params query payload ∅ 0 EmptyString false connErr [].

(** Modelled from the spec: [ctx.ResponseWritten()]. *)
Definition ResponseWritten (c : Context) : bool := Ctx.Written c.

(** [c.Header().Set(key, v)]: the key now has the single value [v]. *)
Definition HeaderSet (key v : string) : Context -> Outcome Context unit :=
  fun c => Returned tt (Ctx.setHeader (<[key := [v]]> (Ctx.Header c)) c).

(** Modelled from the spec: [ctx.Respond(code, body)]. Writing output sets
    the response-written flag ("as an observable side effect of writing
    output to the transport"); the status and body of a later write replace
    those of an earlier one ("last-write-wins"). A failed write is reported
    to the caller and leaves the body as it was. *)
Definition Respond (code : Z) (body : string) : Context -> Outcome Context (option error) :=
  fun c =>
    let c' := Ctx.writeHeader code c in
    match Ctx.WriteErr c with
    | Some e => Returned (Some e) c'
    | None => Returned None (Ctx.writeBody body c')
    end.

(** [Log.Error(msg, "err", err)] on the global logger. *)
Definition LogError (msg : string) (err : error) : Context -> Outcome Context unit :=
  fun c => Returned tt (Ctx.addLog (mkLog LvlError msg [("err", Error err)]) c).

(** ** The standard error handlers (lines 175-202) *)

Definition DefaultErrorHandler : ErrorHandler :=
  fun c e =>
    (status <- (if isBadRequestError e
                then HeaderSet "Content-Type" "application/json" ;;; ret 400
                else ret 500) ;;
     err <- Respond status (Error e) ;;
     match err with
     | Some err => LogError "failed to send default error handler response" err
     | None => ret tt
     end) c.

Definition TerseErrorHandler : ErrorHandler :=
  fun c e =>
    (sb <- (if isBadRequestError e
            then HeaderSet "Content-Type" "application/json" ;;; ret (400, Error e)
            else ret (500, EmptyString)) ;;
     err <- Respond (fst sb) (snd sb) ;;
     match err with
     | Some err => LogError "failed to send terse error handler response" err
     | None => ret tt
     end) c.

(** ** Slices of middleware *)

(** A Go slice is a header: pointer to a backing array, length, capacity.
    [data] is the address of the array in the store ([None] for the nil
    slice). The arrays hold func values, [None] being the nil func that
    fills the cells past the length. *)
Record slice : Type := mkSlice {
  data : option nat;
  len : nat;
  cap : nat
}.

Definition nilSlice : slice := mkSlice None 0 0.

(** What the platform under the package does; none of it is goa's code. *)
Class Platform : Type := {
  (** the capacity the Go runtime picks when [append] must reallocate a
      slice of the given capacity *)
  growslice : nat -> nat;
  (** [json.NewDecoder(body).Decode(&payload)]: the value stored in
      [payload] and the error returned *)
  Decode : string -> value * option error;
  (** the error [http.ListenAndServe] comes back with ([None] for nil) *)
  ListenAndServe : string -> option error
}.

(** The cell behind [s[i]], without the bounds check. *)
Definition cell (arrays : list (list (option Middleware))) (s : slice) (i : nat)
  : option (option Middleware) :=
  match data s with
  | Some p => match arrays !! p with Some arr => arr !! i | None => None end
  | None => None
  end.

(** The index expression [s[i]]: panics when [i] is not below [len s]. *)
Definition index (arrays : list (list (option Middleware))) (s : slice) (i : nat)
  : Result (option Middleware) :=
  if decide (i < len s)%nat then
    match cell arrays s i with
    | Some f => Ok f
    | None => Panic "invalid memory address"
    end
  else Panic "index out of range".

(** [append(s, x)]: when the capacity allows, [x] is written into the
    backing array of [s], right after its elements, and the result shares
    that array; otherwise the elements are copied into a new array, large
    enough for them and [x]. *)
Definition append `{Platform} (arrays : list (list (option Middleware)))
    (s : slice) (x : option Middleware)
  : list (list (option Middleware)) * slice :=
  match data s with
  | Some p =>
      let old := default [] (arrays !! p) in
      if decide (len s < cap s)%nat then
        (<[p := <[len s := x]> old]> arrays, mkSlice (Some p) (len s + 1) (cap s))
      else
        let arr := take (len s) old ++ x :: replicate (growslice (cap s) - (len s + 1)) None in
        (arrays ++ [arr], mkSlice (Some (length arrays)) (len s + 1) (length arr))
  | None =>
      let arr := x :: replicate (growslice 0 - 1) None in
      (arrays ++ [arr], mkSlice (Some (length arrays)) 1 (length arr))
  end.

(** ** Application *)

Module App.
(** [Application] (lines 31-37). [Logger] is the key/value context of the
    embedded log15 logger. The [Router] field is left out: httprouter is
    not part of the package and nothing below depends on the routes. *)
Record Application : Type := mk {
  Logger : list (string * string);
  Name : string;
  ErrorHandler : Context -> error -> Outcome Context unit;
  Middleware : slice
}.
End App.
Abbreviation Application := App.Application.

(** The process store: the object behind the [Application] pointer, the
    backing arrays allocated so far, and the records written by the
    loggers outside of requests. *)
Record World : Type := mkWorld {
  app : Application;
  arrays : list (list (option Middleware));
  Logged : list LogRecord
}.

(** [New] (lines 69-76), in a fresh process. [Middleware] is left at its
    zero value, the nil slice. *)
Definition New (name : string) : World :=
  mkWorld (App.mk [("app", name)] name DefaultErrorHandler nilSlice) [] [].

(** [Fatal] (lines 208-211) *)
Definition Fatal {A} (msg : string) (ctx : list (string * string))
  : World -> Outcome World A :=
  fun w =>
    Exited 1 (mkWorld (app w) (arrays w) (Logged w ++ [mkLog LvlCrit msg ctx])).

(** Modelled from the spec: the argument of [Use] and [NewMiddleware]
    ([middleware.go] is not among the sources). [Use] takes an
    [interface{}]; registration "fails only at build-time type
    mismatches". A value is either of a type [NewMiddleware] knows, given
    here as the [Middleware] it is turned into, or of some other type, of
    which only the printed form is kept. *)
Inductive MiddlewareArg : Type :=
| IsMiddleware (m : Middleware)
| NotMiddleware (repr : string).

(** Modelled from the spec: [NewMiddleware] returns the middleware for a
    value of a known type and an error for any other value. *)
Definition NewMiddleware (middleware : MiddlewareArg)
  : option Middleware * option error :=
  match middleware with
  | IsMiddleware m => (Some m, None)
  | NotMiddleware repr => (None, Some (Errorf ("invalid middleware " +:+ repr)))
  end.

Definition repr_of (middleware : MiddlewareArg) : string :=
  match middleware with
  | IsMiddleware _ => "func"
  | NotMiddleware repr => repr
  end.

(** [Use] (lines 81-87) *)
Definition Use `{Platform} (middleware : MiddlewareArg) : World -> Outcome World unit :=
  fun w =>
    let (m, err) := NewMiddleware middleware in
    match err with
    | Some err =>
        Fatal "invalid middleware"
              [("middleware", repr_of middleware); ("err", Error err)] w
    | None =>
        let (arrays', s') := append (arrays w) (App.Middleware (app w)) m in
        Returned tt
          (mkWorld (App.mk (App.Logger (app w)) (App.Name (app w))
                           (App.ErrorHandler (app w)) s')
                   arrays' (Logged w))
    end.

(** [SetErrorHandler] (lines 94-96) *)
Definition SetErrorHandler (handler : ErrorHandler) : World -> Outcome World unit :=
  fun w =>
    Returned tt
      (mkWorld (App.mk (App.Logger (app w)) (App.Name (app w)) handler
                       (App.Middleware (app w)))
               (arrays w) (Logged w)).

(** [app.Info("listen", "addr", addr)] *)
Definition Info (msg : string) (ctx : list (string * string))
  : World -> Outcome World unit :=
  fun w =>
    Returned tt
      (mkWorld (app w) (arrays w)
               (Logged w ++ [mkLog LvlInfo msg (App.Logger (app w) ++ ctx)])).

(** [Run] (lines 101-106), from the moment [http.ListenAndServe] comes
    back; while it serves, [Run] does not return. *)
Definition Run `{Platform} (addr : string) : World -> Outcome World unit :=
  Info "listen" [("addr", addr)] ;;;
  match ListenAndServe addr with
  | Some err => Fatal "startup failed" [("err", Error err)]
  | None => ret tt
  end.

(** The calls that configure an application before it serves. *)
Inductive Call : Type :=
| CallUse (middleware : MiddlewareArg)
| CallSetErrorHandler (handler : ErrorHandler).

Definition call `{Platform} (c : Call) : World -> Outcome World unit :=
  match c with
  | CallUse middleware => Use middleware
  | CallSetErrorHandler handler => SetErrorHandler handler
  end.

Fixpoint calls `{Platform} (cs : list Call) : World -> Outcome World unit :=
  match cs with
  | [] => ret tt
  | c :: cs => call c ;;; calls cs
  end.

(** ** NewHTTPRouterHandle (lines 113-173) *)

(** What the handle gets from the server and the router: the request [r]
    (its declared length, its body, its parsed query string), the route
    parameters [p], and the connection behind the response writer [w]. *)
Record Request : Type := mkRequest {
  ContentLength : Z;
  Body : string;
  URLQuery : gmap string (list string);
  PathParams : list (string * string);
  ConnErr : option error
}.

(** A func value that captures the [app] pointer reads the application each
    time it runs. In the model such a closure is a function of the
    [Application] found behind the pointer at the time of the call. *)
Definition Func : Type := Application -> Handler.

(** The closure of lines 117-122 *)
Definition errorHandled (h : Handler) : Func :=
  fun app =>
    err <- h ;;
    match err with
    | Some err => (fun ctx => App.ErrorHandler app ctx err) ;;; ret None
    | None => ret None
    end.

(** The loops of lines 123-125 and 160-162: [i] ranges over the indices of
    [chain] and the running handler is replaced by [chain[ml-i-1]] applied
    to it. Calling a nil func panics. ([ml - i - 1] is never negative:
    [i] stays below [ml].) *)
Definition wrap (arrays : list (list (option Middleware))) (chain : slice)
    (ml : nat) (inner : Func) : Result Func :=
  foldl (fun acc i =>
           match acc with
           | Ok middleware =>
               match index arrays chain (ml - i - 1) with
               | Ok (Some m) => Ok (fun app => m (middleware app))
               | Ok None => Panic "nil func call"
               | Panic v => Panic v
               end
           | Panic v => Panic v
           end)
        (Ok inner) (seq 0 (len chain)).

(** Lines 115-125: the value of [middleware] once the loop is done. *)
Definition composed (h : Handler) (w : World) : Result Func :=
  let chain := App.Middleware (app w) in
  let ml := len chain in
  wrap (arrays w) chain ml (errorHandled h).

(** Lines 129-132 *)
Definition loadParams (p : list (string * string)) : gmap string string :=
  foldl (fun params param => <[param.1 := param.2]> params) ∅ p.

(** Lines 133-137 *)
Definition loadQuery (q : gmap string (list string)) : gmap string (list string) :=
  map_fold (fun name value query => <[name := value]> query) ∅ q.

(** Lines 139-145 *)
Definition loadBody `{Platform} (r : Request) : value * option error :=
  if decide (0 < ContentLength r) then Decode (Body r) else (VNil, None).

(** Lines 148-151, [cancel] apart *)
Definition requestContext `{Platform} (logger : list (string * string))
    (r : Request) : Context :=
  Ctx.setLogger logger
    (NewContext (ConnErr r) (loadParams (PathParams r)) (loadQuery (URLQuery r))
                (loadBody r).1).

(** The text built by [fmt.Sprintf] at line 157. *)
Definition invalidJSON (err : error) : string :=
  "{" +:+ dq +:+ "kind" +:+ dq +:+ ":" +:+ dq +:+ "invalid request" +:+ dq +:+ ","
      +:+ dq +:+ "msg" +:+ dq +:+ ":" +:+ dq +:+ "invalid JSON: " +:+ Error err
      +:+ dq +:+ "}".

(** The closure of lines 156-159 *)
Definition invalidPayload (err : error) : Handler :=
  Respond 400 (invalidJSON err) ;;; ret None.

(** Lines 154-163: the handler the request is given to. *)
Definition selected (arrays : list (list (option Middleware))) (chain : slice)
    (ml : nat) (middleware : Func) (err : option error) : Result Func :=
  match err with
  | Some err => wrap arrays chain ml (fun _ => invalidPayload err)
  | None => Ok middleware
  end.

(** Lines 168-171 *)
Definition ensureResponse (app : Application) : Context -> Outcome Context unit :=
  fun ctx =>
    if ResponseWritten ctx then Returned tt ctx
    else App.ErrorHandler app ctx (Errorf "unhandled request").

(** Lines 165-171: the result of [handler(ctx)] is not looked at. *)
Definition invoke (app : Application) (handler : Func) : Context -> Outcome Context unit :=
  handler app ;;; ensureResponse app.

(** The closure returned at line 127, run in the store [w] of the time of
    the request. *)
Definition serve `{Platform} (chain : slice) (ml : nat) (middleware : Func)
    (logger : list (string * string)) (w : World) (r : Request)
  : Outcome Context unit :=
  let err := (loadBody r).2 in
  let ctx := requestContext logger r in
  defer Ctx.cancel
    (match selected (arrays w) chain ml middleware err with
     | Ok handler => invoke (app w) handler
     | Panic v => Panicked v
     end) ctx.

Definition Handle : Type := World -> Request -> Outcome Context unit.

Definition NewHTTPRouterHandle `{Platform} (resName actName : string) (h : Handler)
  : World -> Outcome World Handle :=
  fun w =>
    let chain := App.Middleware (app w) in
    let ml := len chain in
    match composed h w with
    | Ok middleware =>
        let logger := App.Logger (app w) ++ [("ctrl", resName); ("action", actName)] in
        Returned (serve chain ml middleware logger) w
    | Panic v => Panicked v w
    end.

(** ** Vocabulary of the statements *)

(** [nest [m0; ...; mk] inner] is [m0 (... (mk inner))]: the head of the
    list is the outermost wrapper. *)
Definition nest (ms : list Middleware) (inner : Handler) : Handler :=
  foldr (fun m acc => m acc) inner ms.

(** The same nesting for closures that read the application. *)
Definition nestF (ms : list Middleware) (inner : Func) : Func :=
  foldr (fun m middleware => fun app => m (middleware app)) inner ms.

(** The slice [s] has exactly the elements [ms], none of them nil. *)
Definition holds (arrays : list (list (option Middleware))) (s : slice)
    (ms : list Middleware) : Prop :=
  len s = length ms ∧
  ∀ j m, ms !! j = Some m → cell arrays s j = Some (Some m).

(** The header [s] fits its backing array. *)
Definition fits (arrays : list (list (option Middleware))) (s : slice) : Prop :=
  (len s ≤ cap s)%nat ∧
  match data s with
  | Some p => ∃ arr, arrays !! p = Some arr ∧ length arr = cap s
  | None => cap s = 0%nat
  end.

(** Writes through [s] stay clear of the elements of [chain]. *)
Definition clear_of (chain s : slice) : Prop :=
  data s = data chain → (len chain ≤ len s)%nat.

(** The middleware registered by a sequence of calls, in order. *)
Fixpoint registered (cs : list Call) : list Middleware :=
  match cs with
  | [] => []
  | CallUse (IsMiddleware m) :: cs => m :: registered cs
  | _ :: cs => registered cs
  end.

(** The error handler in force after a sequence of calls. *)
Fixpoint handlerAfter (cs : list Call) (eh : ErrorHandler) : ErrorHandler :=
  match cs with
  | [] => eh
  | CallSetErrorHandler eh' :: cs => handlerAfter cs eh'
  | _ :: cs => handlerAfter cs eh
  end.

(** A handler that never ends the process, and a middleware that does not
    add an exit to the handler it wraps. *)
Definition handlerStays (h : Handler) : Prop := ∀ c, exits (h c) = false.

Definition errorHandlerStays (eh : ErrorHandler) : Prop :=
  ∀ c e, exits (eh c e) = false.

Definition middlewareStays (m : Middleware) : Prop :=
  ∀ h, handlerStays h → handlerStays (m h).

(** The handler a request [r] is given to, for a handle built from [h] in
    the store [w0] and run in the store [w]. *)
Definition chainFor `{Platform} (h : Handler) (w0 w : World) (r : Request)
  : Result Func :=
  match composed h w0 with
  | Ok middleware =>
      selected (arrays w) (App.Middleware (app w0)) (len (App.Middleware (app w0)))
               middleware (loadBody r).2
  | Panic v => Panic v
  end.

(** The context that handler is run on. *)
Definition contextFor `{Platform} (resName actName : string) (w0 : World)
    (r : Request) : Context :=
  requestContext (App.Logger (app w0) ++ [("ctrl", resName); ("action", actName)]) r.

(** An error handler that always leaves a response behind. *)
Definition errorHandlerWrites (eh : ErrorHandler) : Prop :=
  ∀ c e c', eh c e = Returned tt c' → ResponseWritten c' = true.

(** A handler that never panics, and a middleware that adds no panic to
    the handler it wraps. *)
Definition handlerCalm (h : Handler) : Prop := ∀ c, panics (h c) = false.

Definition errorHandlerCalm (eh : ErrorHandler) : Prop :=
  ∀ c e, panics (eh c e) = false.

Definition middlewareCalm (m : Middleware) : Prop :=
  ∀ h, handlerCalm h → handlerCalm (m h).

(** [Fatal] seen from the caller: the process ends with status 1 and one
    more critical record. *)
Definition fatal (w : World) (msg : string) (ctx : list (string * string))
  : Outcome World unit :=
  Exited 1 (mkWorld (app w) (arrays w) (Logged w ++ [mkLog LvlCrit msg ctx])).

(** ** Sample values, for the examples *)

Module Sample.
(** Capacities double; the decoder knows two documents; the port is
    taken. *)
Definition platform : Platform := {|
  growslice n := (2 * n + 1)%nat;
  Decode body :=
    if decide (body = "true") then (VBool true, None)
    else if decide (body = "{}") then (VObject [], None)
    else (VNil, Some (Errorf "unexpected end of JSON input"));
  ListenAndServe addr := Some (Errorf "listen tcp: address already in use")
|}.

Definition note (msg : string) : Context -> Outcome Context unit :=
  fun c => Returned tt (Ctx.addLog (mkLog LvlInfo msg []) c).

(** A middleware that records when it is entered and left. *)
Definition tag (name : string) : Middleware :=
  fun next =>
    note ("enter " +:+ name) ;;;
    (err <- next ;; (note ("leave " +:+ name) ;;; ret err)).

(** A middleware that refuses the request without calling the handler
    and without writing a response. *)
Definition deny : Middleware :=
  fun _ => ret (Some (Errorf "denied")).

Definition ok : Handler := note "handler" ;;; Respond 200 "ok" ;;; ret None.
Definition failing : Handler := ret (Some (Errorf "boom")).
Definition invalid : Handler := ret (Some (BadRequestError "bad id")).
Definition silent : Handler := ret None.
Definition crashing : Handler := fun c => Panicked "nil map" c.

Definition noBody : Request := mkRequest 0 EmptyString ∅ [] None.
Definition badBody : Request := mkRequest 1 "{" ∅ [("id", "7")] None.
Definition chunked : Request := mkRequest (-1) "true" ∅ [] None.

(** [api := goa.New(...); api.Use(tag a); api.Use(tag b)] *)
Definition tagged : World :=
  state_of (calls (H := platform)
              [CallUse (IsMiddleware (tag "a")); CallUse (IsMiddleware (tag "b"))]
              (New "api")).

(** [api := goa.New(...); api.Use(deny)] *)
Definition guarded : World :=
  state_of (calls (H := platform) [CallUse (IsMiddleware deny)] (New "api")).

(** The handle built for [h] in [w], or one that does nothing when
    building panics. *)
Definition handleOf (h : Handler) (w : World) : Handle :=
  match NewHTTPRouterHandle (H := platform) "res" "act" h w with
  | Returned handle _ => handle
  | _ => fun _ r => Returned tt (requestContext (H := platform) [] r)
  end.

(** What is left of a finished request: cancelled?, status, body, and the
    messages logged, in order. *)
Definition summary (o : Outcome Context unit) : bool * Z * string * list string :=
  let c := state_of o in
  (Ctx.Cancelled c, Ctx.RespStatus c, Ctx.RespBody c, logMsg <$> Ctx.Logged c).
(** An error handler that writes nothing. *)
Definition mute : ErrorHandler := fun c _ => Returned tt c.

(** [api := goa.New(...); api.SetErrorHandler(mute)] *)
Definition muted : World :=
  state_of (calls (H := platform) [CallSetErrorHandler mute] (New "api")).

Definition withParams : Request :=
  mkRequest 0 EmptyString {["q" := ["x"; "y"]]} [("id", "1"); ("id", "2")] None.
End Sample.

(** ** Slices: reading, appending, aliasing *)

Section slices.
Context `{Platform}.
Implicit Types (arrs : list (list (option Middleware))) (s chain : slice)
               (ms : list Middleware).

Lemma nestF_apply ms (inner : Func) (a : Application) :
  nestF ms inner a = nest ms (inner a).
Proof.
  induction ms as [|m ms IH]; simpl; [done|]. by rewrite IH.
Qed.

Lemma holds_nil arrs : holds arrs nilSlice [].
Proof. split; [done|]. intros j m Hj. by rewrite lookup_nil in Hj. Qed.

Lemma fits_nil arrs : fits arrs nilSlice.
Proof. split; simpl; [lia|done]. Qed.

Lemma holds_index arrs s ms j m :
  holds arrs s ms → ms !! j = Some m → index arrs s j = Ok (Some m).
Proof.
  intros [Hlen Hcell] Hj. unfold index.
  pose proof (lookup_lt_Some _ _ _ Hj) as Hlt.
  rewrite decide_True by lia. by rewrite (Hcell _ _ Hj).
Qed.

(** After [k] rounds the loop has wrapped the last [k] elements. *)
Lemma wrap_rounds arrs s ms (inner : Func) (k : nat) :
  holds arrs s ms → (k ≤ length ms)%nat →
  foldl (fun acc i =>
           match acc with
           | Ok middleware =>
               match index arrs s (len s - i - 1) with
               | Ok (Some m) => Ok (fun app => m (middleware app))
               | Ok None => Panic "nil func call"
               | Panic v => Panic v
               end
           | Panic v => Panic v
           end)
        (Ok inner) (seq 0 k)
  = Ok (nestF (drop (length ms - k) ms) inner).
Proof.
  intros Hh. induction k as [|k IH]; intros Hk.
  - simpl. rewrite Nat.sub_0_r, drop_all. done.
  - rewrite seq_S, foldl_app, IH by lia. simpl.
    destruct (lookup_lt_is_Some_2 ms (length ms - S k)) as [m Hm]; [lia|].
    destruct Hh as [Hlen Hcell].
    replace (len s - k - 1)%nat with (length ms - S k)%nat by lia.
    rewrite (holds_index arrs s ms _ m) by (done || by split).
    rewrite (drop_S _ _ _ Hm).
    replace (S (length ms - S k)) with (length ms - k)%nat by lia.
    done.
Qed.

Lemma wrap_holds arrs s ms (inner : Func) :
  holds arrs s ms → wrap arrs s (len s) inner = Ok (nestF ms inner).
Proof.
  intros Hh. unfold wrap. destruct Hh as [Hlen Hcell].
  replace (seq 0 (len s)) with (seq 0 (length ms)) by (by rewrite Hlen).
  rewrite (wrap_rounds arrs s ms inner (length ms)) by (done || by split).
  by rewrite Nat.sub_diag.
Qed.
End slices.

Section append.
Context `{Platform}.
Implicit Types (arrs : list (list (option Middleware))) (s chain : slice)
               (ms : list Middleware).

(** Appending to a slice that fits its array gives a slice that fits and
    has one more element, the new one last. *)
Lemma append_holds arrs s ms (m : Middleware) arrs' s' :
  fits arrs s → holds arrs s ms →
  append arrs s (Some m) = (arrs', s') →
  fits arrs' s' ∧ holds arrs' s' (ms ++ [m]).
Proof.
  intros [Hle Hfit] [Hlen Hcell]. unfold append.
  destruct (data s) as [p|] eqn:Hp.
  - destruct Hfit as (arr & Harr & Hcap). rewrite Harr. simpl.
    assert (Hold : ∀ j m', ms !! j = Some m' → arr !! j = Some (Some m')).
    { intros j m' Hj. specialize (Hcell _ _ Hj). unfold cell in Hcell.
      by rewrite Hp, Harr in Hcell. }
    pose proof (lookup_lt_Some _ _ _ Harr) as Hpl.
    destruct (decide (len s < cap s)%nat) as [Hlt|Hge];
      intros [= <- <-]; (split; [split|split]); simpl.
    + lia.
    + exists (<[len s:=Some m]> arr). split.
      * by apply list_lookup_insert_eq.
      * by rewrite length_insert.
    + rewrite length_app. simpl. lia.
    + intros j m' Hj. unfold cell. simpl.
      rewrite list_lookup_insert_eq by done.
      apply lookup_snoc_Some in Hj as [[Hjl Hj]|[-> ->]].
      * rewrite list_lookup_insert_ne by lia. by apply Hold.
      * rewrite <- Hlen. apply list_lookup_insert_eq. lia.
    + rewrite length_app, length_take. simpl. lia.
    + eexists. split; [by apply list_lookup_middle|done].
    + rewrite length_app. simpl. lia.
    + intros j m' Hj. unfold cell. simpl.
      rewrite list_lookup_middle by done.
      apply lookup_snoc_Some in Hj as [[Hjl Hj]|[-> ->]].
      * rewrite lookup_app_l by (rewrite length_take; lia).
        rewrite lookup_take_lt by lia. by apply Hold.
      * apply list_lookup_middle. rewrite length_take. lia.
  - assert (ms = []) as ->.
    { apply nil_length_inv. lia. }
    intros [= <- <-]. (split; [split|split]); simpl.
    + lia.
    + eexists. split; [by apply list_lookup_middle|done].
    + lia.
    + intros j m' Hj. unfold cell. simpl.
      rewrite list_lookup_middle by done.
      destruct j as [|j]; simpl in *; [by injection Hj as ->|].
      by rewrite lookup_nil in Hj.
Qed.

(** A slice [chain] taken earlier keeps its elements when something is
    appended to [s], as long as [s] is either another array or at least
    as long as [chain]. *)
Lemma append_alias arrs s chain ms (x : option Middleware) arrs' s' :
  fits arrs s → holds arrs chain ms → clear_of chain s →
  append arrs s x = (arrs', s') →
  holds arrs' chain ms ∧ clear_of chain s'.
Proof.
  intros [Hle Hfit] [Hlen Hcell] Hclear. unfold append.
  assert (Hfresh : ∀ j m, ms !! j = Some m →
            ∃ q, data chain = Some q ∧ (q < length arrs)%nat).
  { intros j m Hj. specialize (Hcell _ _ Hj). unfold cell in Hcell.
    destruct (data chain) as [q|]; [|done].
    destruct (arrs !! q) as [arr|] eqn:Hq; [|done].
    exists q. split; [done|]. by eapply lookup_lt_Some. }
  assert (Hnew : ∀ arr n c,
            holds (arrs ++ [arr]) chain ms ∧
            clear_of chain (mkSlice (Some (length arrs)) n c)).
  { intros arr n c. split.
    - split; [done|]. intros j m Hj. specialize (Hcell _ _ Hj).
      unfold cell in *. destruct (data chain) as [q|]; [|done].
      destruct (arrs !! q) as [a|] eqn:Hq; [|done].
      by rewrite (lookup_app_l_Some _ _ _ _ Hq).
    - unfold clear_of. simpl. intros Hd.
      destruct ms as [|m ms]; [simpl in Hlen; lia|].
      destruct (Hfresh 0%nat m) as (q & Hq & Hlt); [done|].
      rewrite Hq in Hd. injection Hd as Hd. lia. }
  destruct (data s) as [p|] eqn:Hp; [|intros [= <- <-]; apply Hnew].
  destruct Hfit as (arr & Harr & Hcap). rewrite Harr. simpl.
  destruct (decide (len s < cap s)%nat) as [Hlt|Hge];
    [|intros [= <- <-]; apply Hnew].
  intros [= <- <-]. split.
  - split; [done|]. intros j m Hj. specialize (Hcell _ _ Hj).
    pose proof (lookup_lt_Some _ _ _ Hj) as Hjl.
    unfold cell in *. destruct (data chain) as [q|] eqn:Hq; [|done].
    destruct (decide (p = q)) as [->|Hne].
    + rewrite list_lookup_insert_eq by (by eapply lookup_lt_Some).
      rewrite Harr in Hcell.
      rewrite list_lookup_insert_ne; [done|].
      assert (len chain ≤ len s)%nat by (apply Hclear; congruence). lia.
    + by rewrite list_lookup_insert_ne.
  - unfold clear_of in *. simpl. rewrite <- Hp. intros Hd.
    specialize (Hclear Hd). lia.
Qed.
End append.

(** ** Registration *)

Section registration.
Context `{Platform}.
Implicit Types (w : World) (chain : slice) (ms : list Middleware).

Lemma append_fits (arrs : list (list (option Middleware))) (s : slice)
    (x : option Middleware) arrs' s' :
  fits arrs s → append arrs s x = (arrs', s') → fits arrs' s'.
Proof.
  intros [Hle Hfit]. unfold append.
  destruct (data s) as [p|] eqn:Hp.
  - destruct Hfit as (arr & Harr & Hcap). rewrite Harr. simpl.
    pose proof (lookup_lt_Some _ _ _ Harr) as Hpl.
    destruct (decide (len s < cap s)%nat) as [Hlt|Hge];
      intros [= <- <-]; split; simpl.
    + lia.
    + exists (<[len s:=x]> arr). split.
      * by apply list_lookup_insert_eq.
      * by rewrite length_insert.
    + rewrite length_app, length_take. simpl. lia.
    + eexists. split; [by apply list_lookup_middle|done].
  - intros [= <- <-]. split; simpl; [lia|].
    eexists. split; [by apply list_lookup_middle|done].
Qed.

(** What a call to [Use] that returns has done. *)
Lemma Use_returns (v : MiddlewareArg) w w' :
  Use v w = Returned tt w' →
  ∃ m, v = IsMiddleware m ∧
       append (arrays w) (App.Middleware (app w)) (Some m)
         = (arrays w', App.Middleware (app w')) ∧
       App.ErrorHandler (app w') = App.ErrorHandler (app w) ∧
       App.Logger (app w') = App.Logger (app w) ∧
       App.Name (app w') = App.Name (app w) ∧
       Logged w' = Logged w.
Proof.
  unfold Use. destruct v as [m|repr]; simpl; [|done].
  destruct (append (arrays w) (App.Middleware (app w)) (Some m))
    as [arrs' s'] eqn:Happ.
  intros [= <-]. exists m. by simpl.
Qed.

Lemma Use_exits (v : MiddlewareArg) w :
  exits (Use v w) = bool_decide (is_Some (NewMiddleware v).2).
Proof.
  unfold Use. destruct v as [m|repr]; simpl.
  - by destruct (append _ _ _).
  - done.
Qed.

(** The accepted middleware end up in [app.Middleware], in the order of
    the calls; the error handler is the one set last. *)
Lemma calls_registered (cs : list Call) : ∀ w w' ms,
  fits (arrays w) (App.Middleware (app w)) →
  holds (arrays w) (App.Middleware (app w)) ms →
  calls cs w = Returned tt w' →
  fits (arrays w') (App.Middleware (app w')) ∧
  holds (arrays w') (App.Middleware (app w')) (ms ++ registered cs) ∧
  App.ErrorHandler (app w') = handlerAfter cs (App.ErrorHandler (app w)) ∧
  App.Logger (app w') = App.Logger (app w).
Proof.
  induction cs as [|c cs IH]; intros w w' ms Hfit Hholds; simpl.
  - intros [= <-]. by rewrite app_nil_r.
  - unfold bind. destruct c as [v|eh]; simpl.
    + destruct (Use v w) as [[] w1| |] eqn:HU; [|done..].
      apply Use_returns in HU as (m & -> & Happ & HEH & HL & _ & _).
      destruct (append_holds _ _ _ _ _ _ Hfit Hholds Happ) as [Hfit1 Hholds1].
      intros Hcs.
      destruct (IH _ _ _ Hfit1 Hholds1 Hcs) as (Hf & Hh & He & Hl).
      rewrite <- app_assoc in Hh. rewrite HEH in He. rewrite HL in Hl.
      done.
    + intros Hcs. by apply (IH _ _ ms) in Hcs.
Qed.

(** Calls to [Use] made after [chain] was taken leave its elements, and
    the error handler, as they were. *)
Lemma Use_later (vs : list MiddlewareArg) : ∀ w w' chain ms,
  fits (arrays w) (App.Middleware (app w)) →
  holds (arrays w) chain ms →
  clear_of chain (App.Middleware (app w)) →
  calls (CallUse <$> vs) w = Returned tt w' →
  holds (arrays w') chain ms ∧
  App.ErrorHandler (app w') = App.ErrorHandler (app w).
Proof.
  induction vs as [|v vs IH]; intros w w' chain ms Hfit Hholds Hclear; simpl.
  - by intros [= <-].
  - unfold bind. destruct (Use v w) as [[] w1| |] eqn:HU; [|done..].
    apply Use_returns in HU as (m & -> & Happ & HEH & _).
    pose proof (append_fits _ _ _ _ _ Hfit Happ) as Hfit1.
    destruct (append_alias _ _ _ _ _ _ _ Hfit Hholds Hclear Happ)
      as [Hholds1 Hclear1].
    intros Hcs. destruct (IH _ _ _ _ Hfit1 Hholds1 Hclear1 Hcs) as [? ?].
    split; [done|congruence].
Qed.

Lemma New_fits name : fits (arrays (New name)) (App.Middleware (app (New name))).
Proof. apply fits_nil. Qed.

Lemma New_holds name : holds (arrays (New name)) (App.Middleware (app (New name))) [].
Proof. apply holds_nil. Qed.

(** Registering accepted middleware always returns. *)
Lemma Use_all_returns ms : ∀ w,
  ∃ w', calls (CallUse ∘ IsMiddleware <$> ms) w = Returned tt w'.
Proof.
  induction ms as [|m ms IH]; intros w; simpl; [by eexists|].
  unfold bind, Use. simpl.
  destruct (append (arrays w) (App.Middleware (app w)) (Some m)) as [arrs' s'].
  apply IH.
Qed.

Lemma registered_Use_all ms : registered (CallUse ∘ IsMiddleware <$> ms) = ms.
Proof. induction ms as [|m ms IH]; simpl; [done|f_equal; exact IH]. Qed.
End registration.

(** ** Runs of the sample application *)

Example nest_three (m0 m1 m2 : Middleware) (inner : Handler) :
  nest [m0; m1; m2] inner = m0 (m1 (m2 inner)).
Proof. reflexivity. Qed.

Example run_ok :
  Sample.summary (Sample.handleOf Sample.ok Sample.tagged Sample.tagged Sample.noBody)
  = (true, 200, "ok", ["enter a"; "enter b"; "handler"; "leave b"; "leave a"]).
Proof. vm_compute. reflexivity. Qed.

Example run_failing :
  Sample.summary (Sample.handleOf Sample.failing Sample.tagged Sample.tagged Sample.noBody)
  = (true, 500, "boom", ["enter a"; "enter b"; "leave b"; "leave a"]).
Proof. vm_compute. reflexivity. Qed.

Example run_silent :
  Sample.summary (Sample.handleOf Sample.silent Sample.tagged Sample.tagged Sample.noBody)
  = (true, 500, "unhandled request", ["enter a"; "enter b"; "leave b"; "leave a"]).
Proof. vm_compute. reflexivity. Qed.

Example run_crashing :
  Sample.summary (Sample.handleOf Sample.crashing Sample.tagged Sample.tagged Sample.noBody)
  = (true, 0, EmptyString, ["enter a"; "enter b"]).
Proof. vm_compute. reflexivity. Qed.

Example run_badBody :
  Sample.summary (Sample.handleOf Sample.ok Sample.tagged Sample.tagged Sample.badBody)
  = (true, 400, invalidJSON (Errorf "unexpected end of JSON input"),
     ["enter a"; "enter b"; "leave b"; "leave a"]).
Proof. vm_compute. reflexivity. Qed.

(** ** The standard error handlers *)

(** C5. For every context and error, [DefaultErrorHandler] answers a
    [BadRequestError] with status 400, Content-Type application/json and
    the error message as body, and any other error with status 500 and the
    error message as body; [TerseErrorHandler] picks the same status and
    header and the same body for a [BadRequestError], and writes an empty
    body in the 500 case. Both return, with the response-written flag set.
    (The body is the one written unless the connection refuses the
    write.) *)
Theorem standard_error_handlers (c : Context) (e : error) :
  ∃ cD cT,
    DefaultErrorHandler c e = Returned tt cD ∧
    TerseErrorHandler c e = Returned tt cT ∧
    Ctx.RespStatus cD = (if isBadRequestError e then 400 else 500) ∧
    Ctx.RespStatus cT = (if isBadRequestError e then 400 else 500) ∧
    ResponseWritten cD = true ∧ ResponseWritten cT = true ∧
    (if isBadRequestError e
     then Ctx.Header cD !! "Content-Type" = Some ["application/json"] ∧
          Ctx.Header cT !! "Content-Type" = Some ["application/json"]
     else True) ∧
    Ctx.RespBody cD
      = match Ctx.WriteErr c with None => Error e | Some _ => Ctx.RespBody c end ∧
    Ctx.RespBody cT
      = match Ctx.WriteErr c with
        | None => if isBadRequestError e then Error e else EmptyString
        | Some _ => Ctx.RespBody c
        end.
Proof.
  unfold DefaultErrorHandler, TerseErrorHandler, bind, ret, HeaderSet, Respond,
    LogError.
  destruct e as [msg|msg]; simpl;
    destruct (Ctx.WriteErr c) as [we|] eqn:Hwe; simpl;
    do 2 eexists; repeat split; simpl; try done;
    by rewrite lookup_insert_eq.
Qed.

(** C8, as the code has it. A standard policy sets Content-Type to
    application/json when the error is a [BadRequestError] (the 400 case)
    and only then: in the 500 case both policies leave the response header
    as they found it. [TerseErrorHandler] then writes an empty body;
    [DefaultErrorHandler] writes the message. *)
Theorem content_type_only_for_bad_request (c : Context) (e : error) :
  let json := <["Content-Type" := ["application/json"]]> (Ctx.Header c) in
  Ctx.Header (state_of (DefaultErrorHandler c e))
    = (if isBadRequestError e then json else Ctx.Header c) ∧
  Ctx.Header (state_of (TerseErrorHandler c e))
    = (if isBadRequestError e then json else Ctx.Header c) ∧
  (if isBadRequestError e then True
   else Ctx.RespBody (state_of (TerseErrorHandler c e))
        = match Ctx.WriteErr c with None => EmptyString | Some _ => Ctx.RespBody c end).
Proof.
  unfold DefaultErrorHandler, TerseErrorHandler, bind, ret, HeaderSet, Respond,
    LogError.
  destruct e as [msg|msg]; simpl;
    destruct (Ctx.WriteErr c) as [we|] eqn:Hwe; simpl; done.
Qed.

(** C8 as stated fails: for an error that is not a [BadRequestError],
    [DefaultErrorHandler] writes a non-empty body and no Content-Type
    header. *)
Lemma default_500_body_without_content_type :
  let c := state_of (DefaultErrorHandler
                       (requestContext (H := Sample.platform) [] Sample.noBody)
                       (Errorf "boom")) in
  Ctx.RespStatus c = 500 ∧ Ctx.RespBody c = "boom" ∧
  Ctx.RespBody c ≠ EmptyString ∧
  Ctx.Header c !! "Content-Type" = None.
Proof. vm_compute. repeat split; discriminate. Qed.

(** ** The handle *)

Section handle.
Context `{Platform}.

(** Building a handle changes nothing in the store, and the handle is the
    closure over the composed [middleware]. *)
Lemma handle_built resName actName (h : Handler) (w0 w1 : World) (handle : Handle) :
  NewHTTPRouterHandle resName actName h w0 = Returned handle w1 →
  w1 = w0 ∧
  ∃ middleware,
    composed h w0 = Ok middleware ∧
    handle = serve (App.Middleware (app w0)) (len (App.Middleware (app w0)))
                   middleware
                   (App.Logger (app w0) ++ [("ctrl", resName); ("action", actName)]).
Proof.
  unfold NewHTTPRouterHandle.
  destruct (composed h w0) as [middleware|v]; [|done].
  intros [= <- <-]. split; [done|]. by exists middleware.
Qed.

(** One request: the selected handler runs on the fresh context, a
    response is ensured, and [cancel] runs last. *)
Lemma handle_runs resName actName (h : Handler) (w0 w1 : World) (handle : Handle) :
  NewHTTPRouterHandle resName actName h w0 = Returned handle w1 →
  ∀ (w : World) (r : Request),
    handle w r
    = defer Ctx.cancel
        (match chainFor h w0 w r with
         | Ok handler => invoke (app w) handler
         | Panic v => Panicked v
         end)
        (contextFor resName actName w0 r).
Proof.
  intros Hb w r. apply handle_built in Hb as (_ & middleware & Hm & ->).
  unfold serve, chainFor, contextFor. by rewrite Hm.
Qed.

(** The loop of lines 135-137 copies the query map. *)
Lemma loadQuery_copy (q : gmap string (list string)) : loadQuery q = q.
Proof.
  unfold loadQuery.
  apply (map_fold_weak_ind (fun query m => query = m)); [done|].
  intros name value m query _ ->. done.
Qed.

(** The loop of lines 130-132: a later parameter of the same name
    replaces an earlier one. *)
Lemma loadParams_last (p : list (string * string)) (k v : string) :
  loadParams (p ++ [(k, v)]) !! k = Some v.
Proof.
  unfold loadParams. rewrite foldl_app. simpl. apply lookup_insert_eq.
Qed.

Lemma NewHTTPRouterHandle_stays resName actName (h : Handler) (w : World) :
  exits (NewHTTPRouterHandle resName actName h w) = false.
Proof.
  unfold NewHTTPRouterHandle. by destruct (composed h w).
Qed.
End handle.

(** C1. For a handle built by [NewHTTPRouterHandle] and any request: when
    the composed handler chain has run and returned, and the
    response-written flag of the context is still false, the application's
    [ErrorHandler] is called with that context and the error "unhandled
    request" (after which the deferred [cancel] runs). *)
Theorem unhandled_request_reaches_ErrorHandler `{Platform}
    resName actName (h : Handler) (w0 w1 : World) (handle : Handle)
    (w : World) (r : Request) (handler : Func) (e : option error) (c1 : Context) :
  NewHTTPRouterHandle resName actName h w0 = Returned handle w1 →
  chainFor h w0 w r = Ok handler →
  handler (app w) (contextFor resName actName w0 r) = Returned e c1 →
  ResponseWritten c1 = false →
  handle w r
  = defer Ctx.cancel
      (fun ctx => App.ErrorHandler (app w) ctx (Errorf "unhandled request")) c1.
Proof.
  intros Hb Hc Hrun Hw. rewrite (handle_runs _ _ _ _ _ _ Hb), Hc.
  unfold defer, invoke, bind, ensureResponse. by rewrite Hrun, Hw.
Qed.

Lemma unhandled_request_witness :
  Sample.handleOf Sample.silent Sample.tagged Sample.tagged Sample.noBody
  = defer Ctx.cancel
      (fun ctx => App.ErrorHandler (app Sample.tagged) ctx (Errorf "unhandled request"))
      (state_of
         (nestF [Sample.tag "a"; Sample.tag "b"] (errorHandled Sample.silent)
                (app Sample.tagged)
                (contextFor (H := Sample.platform) "res" "act" Sample.tagged
                            Sample.noBody))).
Proof.
  apply (unhandled_request_reaches_ErrorHandler (H := Sample.platform)
           "res" "act" Sample.silent Sample.tagged Sample.tagged _
           Sample.tagged Sample.noBody
           (nestF [Sample.tag "a"; Sample.tag "b"] (errorHandled Sample.silent))
           None).
  - reflexivity.
  - reflexivity.
  - vm_compute. reflexivity.
  - vm_compute. reflexivity.
Defined.

(** C4 as stated fails: a middleware returns the error "denied" without
    writing a response; the [ErrorHandler] is not called with that error.
    The request ends as an unhandled one. *)
Lemma middleware_error_dropped :
  let w := Sample.guarded in
  let handler := nestF [Sample.deny] (errorHandled Sample.ok) in
  let ctx := contextFor (H := Sample.platform) "res" "act" w Sample.noBody in
  chainFor (H := Sample.platform) Sample.ok w w Sample.noBody = Ok handler ∧
  handler (app w) ctx = Returned (Some (Errorf "denied")) ctx ∧
  Sample.handleOf Sample.ok w w Sample.noBody
  ≠ defer Ctx.cancel
      ((fun c => App.ErrorHandler (app w) c (Errorf "denied")) ;;;
       ensureResponse (app w)) ctx ∧
  Ctx.RespBody (state_of (Sample.handleOf Sample.ok w w Sample.noBody))
  = "unhandled request".
Proof.
  repeat split; try reflexivity.
  intros Heq.
  apply (f_equal (fun o => Ctx.RespBody (state_of o))) in Heq.
  vm_compute in Heq. discriminate.
Qed.



Section chain.
Context `{Platform}.

(** The handle spelled out, for a chain whose elements are known: at
    build time in [w0] and, for the loop of the invalid-payload path, at
    request time in [w]. *)
Lemma handle_chain resName actName (h : Handler) (w0 w1 w : World)
    (handle : Handle) (ms : list Middleware) (r : Request) :
  NewHTTPRouterHandle resName actName h w0 = Returned handle w1 →
  holds (arrays w0) (App.Middleware (app w0)) ms →
  holds (arrays w) (App.Middleware (app w0)) ms →
  handle w r
  = defer Ctx.cancel
      (nest ms (match (loadBody r).2 with
                | Some err => invalidPayload err
                | None => errorHandled h (app w)
                end) ;;;
       ensureResponse (app w))
      (contextFor resName actName w0 r).
Proof.
  intros Hb Hh0 Hh. rewrite (handle_runs _ _ _ _ _ _ Hb).
  unfold chainFor, composed. rewrite (wrap_holds _ _ _ _ Hh0).
  unfold selected. destruct (loadBody r).2 as [err|].
  - rewrite (wrap_holds _ _ _ _ Hh). unfold invoke. by rewrite nestF_apply.
  - unfold invoke. by rewrite nestF_apply.
Qed.

Lemma reachable (name : string) (cs : list Call) (w0 : World) :
  calls cs (New name) = Returned tt w0 →
  fits (arrays w0) (App.Middleware (app w0)) ∧
  holds (arrays w0) (App.Middleware (app w0)) (registered cs) ∧
  App.ErrorHandler (app w0) = handlerAfter cs DefaultErrorHandler.
Proof.
  intros Hcs.
  destruct (calls_registered cs _ _ [] (New_fits name) (New_holds name) Hcs)
    as (Hf & Hh & He & _).
  done.
Qed.

Lemma invalidPayload_writes (err : error) (c : Context) :
  ∃ c', invalidPayload err c = Returned None c' ∧
        Ctx.RespStatus c' = 400 ∧ ResponseWritten c' = true ∧
        Ctx.RespBody c'
        = match Ctx.WriteErr c with
          | None => invalidJSON err
          | Some _ => Ctx.RespBody c
          end.
Proof.
  unfold invalidPayload, bind, Respond, ret.
  destruct (Ctx.WriteErr c); eexists; (split; [done|]); done.
Qed.

(** Nothing in the chain ends the process when no part of it does. *)
Lemma nest_stays (ms : list Middleware) (inner : Handler) :
  Forall middlewareStays ms → handlerStays inner → handlerStays (nest ms inner).
Proof.
  intros Hms Hin. induction Hms as [|m ms Hm Hms IH]; simpl; [done|].
  by apply Hm.
Qed.

Lemma errorHandled_stays (h : Handler) (a : Application) :
  handlerStays h → errorHandlerStays (App.ErrorHandler a) →
  handlerStays (errorHandled h a).
Proof.
  intros Hh He c. unfold errorHandled, bind, ret.
  specialize (Hh c). destruct (h c) as [[err|] c'| |]; try done.
  specialize (He c' err). by destruct (App.ErrorHandler a c' err).
Qed.

Lemma invalidPayload_stays (err : error) : handlerStays (invalidPayload err).
Proof.
  intros c. destruct (invalidPayload_writes err c) as (c' & -> & _). done.
Qed.
End chain.

(** C4, as the code has it. For a handle built in a configured
    application and a request without a payload error:
    - the handle runs the registered chain around the error-handling
      wrapper of [h], then the response check, then [cancel];
    - when [h] returns an error, that wrapper calls the application's
      [ErrorHandler] with the context [h] left and that error, and itself
      returns nil; when [h] returns nil it does not call it;
    - the dispatcher does not look at what the composed handler returns:
      whatever value comes back, on either path, the request goes on to
      the response check;
    - so with no middleware registered, an error returned by [h] reaches
      the [ErrorHandler], after which the response check and [cancel]
      run. *)
Theorem handler_error_reaches_ErrorHandler `{Platform}
    (name : string) (cs : list Call) resName actName (h : Handler)
    (w0 w1 : World) (handle : Handle) (r : Request) :
  calls cs (New name) = Returned tt w0 →
  NewHTTPRouterHandle resName actName h w0 = Returned handle w1 →
  (loadBody r).2 = None →
  handle w1 r
  = defer Ctx.cancel
      (nest (registered cs) (errorHandled h (app w1)) ;;; ensureResponse (app w1))
      (contextFor resName actName w0 r) ∧
  (∀ (c c' : Context) (err : error),
     h c = Returned (Some err) c' →
     errorHandled h (app w1) c
     = ((fun ctx => App.ErrorHandler (app w1) ctx err) ;;; ret None) c') ∧
  (∀ c c' : Context,
     h c = Returned None c' → errorHandled h (app w1) c = Returned None c') ∧
  (∀ (w : World) (r' : Request) (handler : Func) (e : option error) (c1 : Context),
     chainFor h w0 w r' = Ok handler →
     handler (app w) (contextFor resName actName w0 r') = Returned e c1 →
     handle w r' = defer Ctx.cancel (ensureResponse (app w)) c1) ∧
  (registered cs = [] →
   ∀ (err : error) (c1 : Context),
     h (contextFor resName actName w0 r) = Returned (Some err) c1 →
     handle w1 r
     = defer Ctx.cancel
         ((fun ctx => App.ErrorHandler (app w1) ctx err) ;;; ensureResponse (app w1))
         c1).
Proof.
  intros Hcs Hb Hl.
  destruct (reachable _ _ _ Hcs) as (_ & Hh & _).
  pose proof (handle_built _ _ _ _ _ _ Hb) as [-> _].
  assert (Hrun : handle w0 r
                 = defer Ctx.cancel
                     (nest (registered cs) (errorHandled h (app w0)) ;;;
                      ensureResponse (app w0))
                     (contextFor resName actName w0 r)).
  { rewrite (handle_chain _ _ _ _ _ _ _ _ r Hb Hh Hh). by rewrite Hl. }
  split; [done|]. split; [|split; [|split]].
  - intros c c' err Hc. unfold errorHandled, bind. by rewrite Hc.
  - intros c c' Hc. unfold errorHandled, bind. by rewrite Hc.
  - intros w r' handler e c1 Hc Hr.
    rewrite (handle_runs _ _ _ _ _ _ Hb), Hc.
    unfold defer, invoke, bind. by rewrite Hr.
  - intros Hreg err c1 Hc. rewrite Hrun, Hreg. simpl.
    unfold defer, bind, errorHandled, bind, ret. rewrite Hc.
    by destruct (App.ErrorHandler (app w0) c1 err).
Qed.

Lemma handler_error_witness :
  Sample.handleOf Sample.failing (New "api") (New "api") Sample.noBody
  = defer Ctx.cancel
      ((fun ctx => DefaultErrorHandler ctx (Errorf "boom")) ;;;
       ensureResponse (app (New "api")))
      (contextFor (H := Sample.platform) "res" "act" (New "api") Sample.noBody) ∧
  Sample.handleOf Sample.failing Sample.tagged Sample.tagged Sample.noBody
  = defer Ctx.cancel
      (nest [Sample.tag "a"; Sample.tag "b"]
            (errorHandled Sample.failing (app Sample.tagged)) ;;;
       ensureResponse (app Sample.tagged))
      (contextFor (H := Sample.platform) "res" "act" Sample.tagged Sample.noBody).
Proof.
  split.
  - apply (proj2 (proj2 (proj2 (proj2
             (handler_error_reaches_ErrorHandler (H := Sample.platform) "api" []
                "res" "act" Sample.failing (New "api") (New "api")
                (Sample.handleOf Sample.failing (New "api")) Sample.noBody
                eq_refl eq_refl eq_refl))))).
    + reflexivity.
    + reflexivity.
  - apply (handler_error_reaches_ErrorHandler (H := Sample.platform) "api"
             [CallUse (IsMiddleware (Sample.tag "a"));
              CallUse (IsMiddleware (Sample.tag "b"))]
             "res" "act" Sample.failing Sample.tagged Sample.tagged
             (Sample.handleOf Sample.failing Sample.tagged) Sample.noBody).
    + reflexivity.
    + reflexivity.
    + reflexivity.
Defined.

(** The failing handler of the sample, end to end: with no middleware the
    client gets the 500 of [DefaultErrorHandler] with the handler's
    message. *)
Example run_failing_bare :
  Sample.summary (Sample.handleOf Sample.failing (New "api") (New "api") Sample.noBody)
  = (true, 500, "boom", []).
Proof. vm_compute. reflexivity. Qed.

(** C3. A request whose body is decoded (its declared length is positive)
    and fails to decode: the handle gives the context to the
    invalid-payload handler wrapped by every registered middleware, in the
    same nesting as the normal chain, then ensures a response and cancels;
    the terminal handler plays no part (a handle built from any other
    handler does the same); the invalid-payload handler writes status 400
    and, as body, the JSON object with the two quoted fields kind, of
    value "invalid request", and msg, of value "invalid JSON: " followed by
    the decoder's error text; the statement spells that text out, [q]
    being the double quote (character 34). *)
Theorem invalid_payload_goes_through_chain `{Platform}
    (name : string) (cs : list Call) resName actName (h : Handler)
    (w0 w1 : World) (handle : Handle) (r : Request) (err : error) :
  calls cs (New name) = Returned tt w0 →
  NewHTTPRouterHandle resName actName h w0 = Returned handle w1 →
  0 < ContentLength r →
  (Decode (Body r)).2 = Some err →
  handle w1 r
  = defer Ctx.cancel
      (nest (registered cs) (invalidPayload err) ;;; ensureResponse (app w1))
      (contextFor resName actName w0 r) ∧
  (∀ (h' : Handler) (handle' : Handle) (w1' : World),
     NewHTTPRouterHandle resName actName h' w0 = Returned handle' w1' →
     handle' w1 r = handle w1 r) ∧
  ∀ c : Context,
    ∃ c', invalidPayload err c = Returned None c' ∧
          Ctx.RespStatus c' = 400 ∧ ResponseWritten c' = true ∧
          Ctx.RespBody c'
          = match Ctx.WriteErr c with
            | None =>
                let q := String (Ascii.ascii_of_nat 34%nat) EmptyString in
                "{" +:+ q +:+ "kind" +:+ q +:+ ":" +:+ q +:+ "invalid request" +:+ q
                    +:+ "," +:+ q +:+ "msg" +:+ q +:+ ":" +:+ q
                    +:+ "invalid JSON: " +:+ Error err +:+ q +:+ "}"
            | Some _ => Ctx.RespBody c
            end.
Proof.
  intros Hcs Hb Hlen Hdec.
  destruct (reachable _ _ _ Hcs) as (_ & Hh & _).
  pose proof (handle_built _ _ _ _ _ _ Hb) as [-> _].
  assert (Herr : (loadBody r).2 = Some err).
  { unfold loadBody. by rewrite decide_True. }
  split; [|split].
  - rewrite (handle_chain _ _ _ _ _ _ _ _ r Hb Hh Hh). by rewrite Herr.
  - intros h' handle' w1' Hb'.
    rewrite (handle_chain _ _ _ _ _ _ _ _ r Hb Hh Hh).
    rewrite (handle_chain _ _ _ _ _ _ _ _ r Hb' Hh Hh).
    by rewrite Herr.
  - intros c. destruct (invalidPayload_writes err c) as (c' & Hr & Hs & Hw & Hbody).
    exists c'. split; [done|]. split; [done|]. split; [done|].
    rewrite Hbody. by destruct (Ctx.WriteErr c).
Qed.

Lemma invalid_payload_witness :
  let err := Errorf "unexpected end of JSON input" in
  Sample.handleOf Sample.ok Sample.tagged Sample.tagged Sample.badBody
  = defer Ctx.cancel
      (nest [Sample.tag "a"; Sample.tag "b"] (invalidPayload err) ;;;
       ensureResponse (app Sample.tagged))
      (contextFor (H := Sample.platform) "res" "act" Sample.tagged Sample.badBody) ∧
  (∀ (h' : Handler) (handle' : Handle) (w1' : World),
     NewHTTPRouterHandle (H := Sample.platform) "res" "act" h' Sample.tagged
     = Returned handle' w1' →
     handle' Sample.tagged Sample.badBody
     = Sample.handleOf Sample.ok Sample.tagged Sample.tagged Sample.badBody) ∧
  ∀ c : Context,
    ∃ c', invalidPayload err c = Returned None c' ∧
          Ctx.RespStatus c' = 400 ∧ ResponseWritten c' = true ∧
          Ctx.RespBody c'
          = match Ctx.WriteErr c with
            | None =>
                let q := String (Ascii.ascii_of_nat 34%nat) EmptyString in
                "{" +:+ q +:+ "kind" +:+ q +:+ ":" +:+ q +:+ "invalid request" +:+ q
                    +:+ "," +:+ q +:+ "msg" +:+ q +:+ ":" +:+ q
                    +:+ "invalid JSON: " +:+ Error err +:+ q +:+ "}"
            | Some _ => Ctx.RespBody c
            end.
Proof.
  apply (invalid_payload_goes_through_chain (H := Sample.platform) "api"
           [CallUse (IsMiddleware (Sample.tag "a"));
            CallUse (IsMiddleware (Sample.tag "b"))]
           "res" "act" Sample.ok Sample.tagged Sample.tagged
           (Sample.handleOf Sample.ok Sample.tagged) Sample.badBody).
  - reflexivity.
  - reflexivity.
  - reflexivity.
  - reflexivity.
Defined.

(** The malformed body of the sample, end to end: what the client gets,
    character by character (34 is the double quote). *)
Example run_badBody_text :
  let o := Sample.handleOf Sample.ok Sample.tagged Sample.tagged Sample.badBody in
  Ctx.RespStatus (state_of o) = 400 ∧
  String.list_ascii_of_string (Ctx.RespBody (state_of o))
  = (Ascii.ascii_of_nat <$> [123; 34; 107; 105; 110; 100; 34; 58; 34]%nat)
      ++ String.list_ascii_of_string "invalid request"
      ++ (Ascii.ascii_of_nat <$> [34; 44; 34; 109; 115; 103; 34; 58; 34]%nat)
      ++ String.list_ascii_of_string "invalid JSON: unexpected end of JSON input"
      ++ (Ascii.ascii_of_nat <$> [34; 125]%nat).
Proof. vm_compute. split; reflexivity. Qed.

(** The text of line 157, character by character: an opening brace, a
    quoted key, and so on. *)
Example invalidJSON_text :
  invalidJSON (Errorf "EOF")
  = String.concat dq
      ["{"; "kind"; ":"; "invalid request"; ","; "msg"; ":"; "invalid JSON: EOF"; "}"].
Proof. reflexivity. Qed.

(** C9, as the code has it. The body is decoded exactly when the declared
    content length is positive. A request with content length zero or
    negative (the unknown length -1) is not decoded: its context has a nil
    payload and goes to the composed handler of the normal path. *)
Theorem body_decoded_when_length_positive `{Platform}
    resName actName (h : Handler) (w0 w1 : World) (handle : Handle)
    (w : World) (r : Request) :
  NewHTTPRouterHandle resName actName h w0 = Returned handle w1 →
  (0 < ContentLength r →
   loadBody r = Decode (Body r) ∧
   Ctx.Payload (contextFor resName actName w0 r) = (Decode (Body r)).1) ∧
  ((ContentLength r ≤ 0)%Z →
   loadBody r = (VNil, None) ∧
   Ctx.Payload (contextFor resName actName w0 r) = VNil ∧
   ∃ middleware,
     composed h w0 = Ok middleware ∧
     handle w r
     = defer Ctx.cancel (invoke (app w) middleware)
         (contextFor resName actName w0 r)).
Proof.
  intros Hb. split; intros Hlen.
  - unfold contextFor, requestContext, loadBody. simpl.
    by rewrite decide_True.
  - assert (Hl : loadBody r = (VNil, None)).
    { unfold loadBody. rewrite decide_False; [done|lia]. }
    split; [done|]. split.
    + unfold contextFor, requestContext. simpl. by rewrite Hl.
    + rewrite (handle_runs _ _ _ _ _ _ Hb). unfold chainFor.
      apply handle_built in Hb as (_ & middleware & Hm & _).
      exists middleware. split; [done|]. by rewrite Hm, Hl.
Qed.

Lemma body_decoded_witness :
  (loadBody (H := Sample.platform) Sample.badBody
   = Decode (Platform := Sample.platform) (Body Sample.badBody) ∧
   Ctx.Payload (contextFor (H := Sample.platform) "res" "act" Sample.tagged Sample.badBody)
   = (Decode (Platform := Sample.platform) (Body Sample.badBody)).1) ∧
  (loadBody (H := Sample.platform) Sample.chunked = (VNil, None) ∧
   Ctx.Payload (contextFor (H := Sample.platform) "res" "act" Sample.tagged Sample.chunked)
   = VNil ∧
   ∃ middleware,
     composed Sample.ok Sample.tagged = Ok middleware ∧
     Sample.handleOf Sample.ok Sample.tagged Sample.tagged Sample.chunked
     = defer Ctx.cancel (invoke (app Sample.tagged) middleware)
         (contextFor (H := Sample.platform) "res" "act" Sample.tagged Sample.chunked)).
Proof.
  split.
  - apply (body_decoded_when_length_positive (H := Sample.platform)
             "res" "act" Sample.ok Sample.tagged Sample.tagged
             (Sample.handleOf Sample.ok Sample.tagged) Sample.tagged Sample.badBody);
      reflexivity.
  - apply (body_decoded_when_length_positive (H := Sample.platform)
             "res" "act" Sample.ok Sample.tagged Sample.tagged
             (Sample.handleOf Sample.ok Sample.tagged) Sample.tagged Sample.chunked).
    + reflexivity.
    + vm_compute. discriminate.
Defined.

(** C9 as stated fails: a request of unknown length (-1) declares a
    non-zero content length, its body would decode to [true], and yet the
    context it gets has a nil payload. *)
Lemma unknown_length_body_not_decoded :
  ContentLength Sample.chunked ≠ 0 ∧
  Decode (Platform := Sample.platform) (Body Sample.chunked) = (VBool true, None) ∧
  loadBody (H := Sample.platform) Sample.chunked = (VNil, None) ∧
  Ctx.Payload (contextFor (H := Sample.platform) "res" "act" Sample.tagged Sample.chunked)
  = VNil.
Proof. repeat split; try reflexivity. discriminate. Qed.

(** C2. Register the middleware [ms] with [Use], in that order, on a new
    application, and build a handle for [h]: registration returns, the
    loop of [NewHTTPRouterHandle] does not panic, and the handler it
    composes is [m0 (m1 (... (mk w)))], [w] being the error-handling
    wrapper of [h]: the middleware registered first is outermost, the one
    registered last is next to the wrapper. This holds for every list
    [ms], of any length. *)
Theorem first_registered_is_outermost `{Platform}
    (name : string) (ms : list Middleware) resName actName (h : Handler) :
  ∃ (w : World) (middleware : Func),
    calls (CallUse ∘ IsMiddleware <$> ms) (New name) = Returned tt w ∧
    composed h w = Ok middleware ∧
    NewHTTPRouterHandle resName actName h w
    = Returned (serve (App.Middleware (app w)) (len (App.Middleware (app w)))
                      middleware
                      (App.Logger (app w) ++ [("ctrl", resName); ("action", actName)]))
               w ∧
    ∀ a : Application, middleware a = nest ms (errorHandled h a).
Proof.
  destruct (Use_all_returns ms (New name)) as [w Hw].
  destruct (reachable _ _ _ Hw) as (_ & Hh & _).
  rewrite registered_Use_all in Hh.
  exists w, (nestF ms (errorHandled h)).
  assert (Hc : composed h w = Ok (nestF ms (errorHandled h))).
  { unfold composed. by apply wrap_holds. }
  split; [done|]. split; [done|]. split.
  - unfold NewHTTPRouterHandle. by rewrite Hc.
  - intros a. apply nestF_apply.
Qed.

(** C10. A handle composes the middleware that [app.Middleware] holds when
    it is built: after any further calls to [Use] that return, every
    request gets from the handle what it got before them, on the normal
    path and on the invalid-payload path alike. *)
Theorem later_Use_not_composed `{Platform}
    (name : string) (cs : list Call) resName actName (h : Handler)
    (w0 w1 w2 : World) (handle : Handle) (vs : list MiddlewareArg) (r : Request) :
  calls cs (New name) = Returned tt w0 →
  NewHTTPRouterHandle resName actName h w0 = Returned handle w1 →
  calls (CallUse <$> vs) w1 = Returned tt w2 →
  handle w2 r = handle w1 r.
Proof.
  intros Hcs Hb Hvs.
  destruct (reachable _ _ _ Hcs) as (Hf & Hh & _).
  pose proof (handle_built _ _ _ _ _ _ Hb) as [-> _].
  assert (Hclear : clear_of (App.Middleware (app w0)) (App.Middleware (app w0))).
  { intros _. lia. }
  destruct (Use_later vs _ _ _ _ Hf Hh Hclear Hvs) as [Hh2 He].
  rewrite (handle_chain _ _ _ _ _ _ _ _ r Hb Hh Hh2).
  rewrite (handle_chain _ _ _ _ _ _ _ _ r Hb Hh Hh).
  unfold errorHandled, ensureResponse. by rewrite He.
Qed.

Lemma later_Use_witness :
  let w2 := state_of (Use (H := Sample.platform) (IsMiddleware Sample.deny) Sample.tagged) in
  Sample.handleOf Sample.ok Sample.tagged w2 Sample.badBody
  = Sample.handleOf Sample.ok Sample.tagged Sample.tagged Sample.badBody.
Proof.
  apply (later_Use_not_composed (H := Sample.platform) "api"
           [CallUse (IsMiddleware (Sample.tag "a"));
            CallUse (IsMiddleware (Sample.tag "b"))]
           "res" "act" Sample.ok Sample.tagged Sample.tagged _ _
           [IsMiddleware Sample.deny]).
  - reflexivity.
  - reflexivity.
  - reflexivity.
Defined.

(** In the sample the later [Use] writes into the very array the handle
    reads: the slice had room for a third element. *)
Example later_Use_shares_array :
  let w2 := state_of (Use (H := Sample.platform) (IsMiddleware Sample.deny) Sample.tagged) in
  data (App.Middleware (app w2)) = data (App.Middleware (app Sample.tagged)) ∧
  len (App.Middleware (app Sample.tagged)) = 2%nat ∧
  len (App.Middleware (app w2)) = 3%nat ∧
  length (arrays w2) = length (arrays Sample.tagged).
Proof. vm_compute. done. Qed.

(** The error handler, unlike the chain, is read when the request runs:
    one set after the handle was built is the one called. *)
Example later_SetErrorHandler_seen :
  let w2 := state_of (SetErrorHandler TerseErrorHandler Sample.tagged) in
  Sample.summary (Sample.handleOf Sample.failing Sample.tagged w2 Sample.noBody)
  = (true, 500, EmptyString, ["enter a"; "enter b"; "leave b"; "leave a"]).
Proof. vm_compute. reflexivity. Qed.

(** ** Leaving the process *)

Lemma DefaultErrorHandler_stays : errorHandlerStays DefaultErrorHandler.
Proof.
  intros c e. unfold DefaultErrorHandler, bind, ret, HeaderSet, Respond, LogError.
  destruct e; simpl; by destruct (Ctx.WriteErr c).
Qed.

Lemma TerseErrorHandler_stays : errorHandlerStays TerseErrorHandler.
Proof.
  intros c e. unfold TerseErrorHandler, bind, ret, HeaderSet, Respond, LogError.
  destruct e; simpl; by destruct (Ctx.WriteErr c).
Qed.

Lemma Sample_ok_stays : handlerStays Sample.ok.
Proof.
  intros c. unfold Sample.ok, Sample.note, bind, ret, Respond. simpl.
  by destruct (Ctx.WriteErr c).
Qed.

Lemma Sample_tag_stays (name : string) : middlewareStays (Sample.tag name).
Proof.
  intros h Hh c. unfold Sample.tag, Sample.note, bind, ret. simpl.
  match goal with |- context [h ?x] => specialize (Hh x); by destruct (h x) end.
Qed.

Lemma Run_exits `{Platform} (addr : string) (w : World) :
  exits (Run addr w) = bool_decide (is_Some (ListenAndServe addr)).
Proof.
  unfold Run, bind, Info, Fatal, ret. by destruct (ListenAndServe addr).
Qed.

(** C7, as the code has it. Two operations end the process, both with
    status 1 and both before any request is served: [Run], exactly when
    the listener fails to start, and [Use], exactly when [NewMiddleware]
    rejects the value it is given. [SetErrorHandler] and
    [NewHTTPRouterHandle] never do, and a request served by a handle ends
    the process only if the handler, a registered middleware or the error
    handler does. *)
Theorem exits_only_from_Run_and_Use `{Platform} :
  (∀ (addr : string) (w : World),
     exits (Run addr w) = bool_decide (is_Some (ListenAndServe addr)) ∧
     ∀ code w', Run addr w = Exited code w' → code = 1) ∧
  (∀ (v : MiddlewareArg) (w : World),
     exits (Use v w) = bool_decide (is_Some (NewMiddleware v).2) ∧
     ∀ code w', Use v w = Exited code w' → code = 1) ∧
  (∀ (eh : ErrorHandler) (w : World), exits (SetErrorHandler eh w) = false) ∧
  (∀ resName actName (h : Handler) (w : World),
     exits (NewHTTPRouterHandle resName actName h w) = false) ∧
  (∀ (name : string) (cs : list Call) resName actName (h : Handler)
     (w0 w1 : World) (handle : Handle) (r : Request),
     calls cs (New name) = Returned tt w0 →
     NewHTTPRouterHandle resName actName h w0 = Returned handle w1 →
     handlerStays h →
     Forall middlewareStays (registered cs) →
     errorHandlerStays (App.ErrorHandler (app w1)) →
     exits (handle w1 r) = false).
Proof.
  split; [|split; [|split; [|split]]].
  - intros addr w. split; [apply Run_exits|].
    unfold Run, bind, Info, Fatal, ret.
    destruct (ListenAndServe addr); [|done]. by intros code w' [= <- _].
  - intros v w. split; [apply Use_exits|].
    unfold Use, Fatal. destruct v as [m|repr]; simpl.
    + by destruct (append _ _ _).
    + by intros code w' [= <- _].
  - done.
  - intros. apply NewHTTPRouterHandle_stays.
  - intros name cs resName actName h w0 w1 handle r Hcs Hb Hh Hms He.
    destruct (reachable _ _ _ Hcs) as (_ & Hholds & _).
    pose proof (handle_built _ _ _ _ _ _ Hb) as [-> _].
    rewrite (handle_chain _ _ _ _ _ _ _ _ r Hb Hholds Hholds).
    assert (Hin : handlerStays (match (loadBody r).2 with
                                | Some err => invalidPayload err
                                | None => errorHandled h (app w0)
                                end)).
    { destruct (loadBody r).2;
        [apply invalidPayload_stays|by apply errorHandled_stays]. }
    pose proof (nest_stays _ _ Hms Hin (contextFor resName actName w0 r)) as Hn.
    unfold defer, bind, ensureResponse.
    destruct (nest _ _ _) as [e c| |]; try done.
    destruct (ResponseWritten c); [done|].
    specialize (He c (Errorf "unhandled request")).
    by destruct (App.ErrorHandler (app w0) c _).
Qed.

Lemma exits_witness :
  exits (Sample.handleOf Sample.ok Sample.tagged Sample.tagged Sample.badBody) = false.
Proof.
  apply (proj2 (proj2 (proj2 (proj2
           (exits_only_from_Run_and_Use (H := Sample.platform)))))
           "api"
           [CallUse (IsMiddleware (Sample.tag "a"));
            CallUse (IsMiddleware (Sample.tag "b"))]
           "res" "act" Sample.ok Sample.tagged Sample.tagged).
  - reflexivity.
  - reflexivity.
  - apply Sample_ok_stays.
  - repeat constructor; apply Sample_tag_stays.
  - apply DefaultErrorHandler_stays.
Defined.

(** C7 as stated fails: [Use] ends the process, with status 1, when it is
    given a value that is not a middleware. *)
Lemma Use_ends_the_process :
  exits (Use (H := Sample.platform) (NotMiddleware "42") (New "api")) = true ∧
  Use (H := Sample.platform) (NotMiddleware "42") (New "api")
  = Exited 1
      (mkWorld (app (New "api")) []
               [mkLog LvlCrit "invalid middleware"
                      [("middleware", "42"); ("err", "invalid middleware 42")]]).
Proof. split; reflexivity. Qed.

(** ** More on the handle: what happens after the handler chain *)

(** X1. With an error handler that always writes, a request that returns
    has the response-written flag set, whatever the handler and the
    middleware did. *)
Theorem returned_request_has_response `{Platform}
    resName actName (h : Handler) (w0 w1 : World) (handle : Handle)
    (w : World) (r : Request) (c : Context) :
  NewHTTPRouterHandle resName actName h w0 = Returned handle w1 →
  errorHandlerWrites (App.ErrorHandler (app w)) →
  handle w r = Returned tt c →
  ResponseWritten c = true.
Proof.
  intros Hb Hw. rewrite (handle_runs _ _ _ _ _ _ Hb). unfold defer.
  destruct (chainFor h w0 w r) as [handler|v]; [|done].
  unfold invoke, bind, ensureResponse.
  destruct (handler (app w) _) as [e c1| |]; [|done..].
  destruct (ResponseWritten c1) eqn:Hc1.
  - intros [= <-]. done.
  - destruct (App.ErrorHandler (app w) c1 _) as [[] c2| |] eqn:He; [|done..].
    intros [= <-]. by apply (Hw _ _ _ He).
Qed.

Lemma DefaultErrorHandler_writes : errorHandlerWrites DefaultErrorHandler.
Proof.
  intros c e c'. unfold DefaultErrorHandler, bind, ret, HeaderSet, Respond, LogError.
  destruct e; simpl; destruct (Ctx.WriteErr c); by intros [= <-].
Qed.

Lemma TerseErrorHandler_writes : errorHandlerWrites TerseErrorHandler.
Proof.
  intros c e c'. unfold TerseErrorHandler, bind, ret, HeaderSet, Respond, LogError.
  destruct e; simpl; destruct (Ctx.WriteErr c); by intros [= <-].
Qed.

Lemma returned_request_witness :
  ResponseWritten
    (state_of (Sample.handleOf Sample.silent Sample.tagged Sample.tagged Sample.noBody))
  = true.
Proof.
  apply (returned_request_has_response (H := Sample.platform)
           "res" "act" Sample.silent Sample.tagged Sample.tagged
           (Sample.handleOf Sample.silent Sample.tagged) Sample.tagged Sample.noBody).
  - reflexivity.
  - apply DefaultErrorHandler_writes.
  - vm_compute. reflexivity.
Defined.

(** X2. When the handler chain returns with the response already written,
    the error handler is not called: the handle returns the context the
    chain left, cancelled. The value the chain returned plays no part. *)
Theorem written_response_skips_ErrorHandler `{Platform}
    resName actName (h : Handler) (w0 w1 : World) (handle : Handle)
    (w : World) (r : Request) (handler : Func) (e : option error) (c1 : Context) :
  NewHTTPRouterHandle resName actName h w0 = Returned handle w1 →
  chainFor h w0 w r = Ok handler →
  handler (app w) (contextFor resName actName w0 r) = Returned e c1 →
  ResponseWritten c1 = true →
  handle w r = Returned tt (Ctx.cancel c1).
Proof.
  intros Hb Hc Hrun Hw. rewrite (handle_runs _ _ _ _ _ _ Hb), Hc.
  unfold defer, invoke, bind, ensureResponse. by rewrite Hrun, Hw.
Qed.

Lemma written_response_witness :
  Sample.handleOf Sample.ok Sample.tagged Sample.tagged Sample.noBody
  = Returned tt
      (Ctx.cancel
         (state_of
            (nestF [Sample.tag "a"; Sample.tag "b"] (errorHandled Sample.ok)
                   (app Sample.tagged)
                   (contextFor (H := Sample.platform) "res" "act" Sample.tagged
                               Sample.noBody)))).
Proof.
  apply (written_response_skips_ErrorHandler (H := Sample.platform)
           "res" "act" Sample.ok Sample.tagged Sample.tagged _
           Sample.tagged Sample.noBody
           (nestF [Sample.tag "a"; Sample.tag "b"] (errorHandled Sample.ok))
           None).
  - reflexivity.
  - reflexivity.
  - vm_compute. reflexivity.
  - vm_compute. reflexivity.
Defined.

(** X3. The handle does not recover: a panic of the handler chain leaves
    the handle as the same panic. The error handler is not called and no
    response is added; only the deferred [cancel] runs. *)
Theorem panic_passes_through `{Platform}
    resName actName (h : Handler) (w0 w1 : World) (handle : Handle)
    (w : World) (r : Request) (handler : Func) (v : string) (c1 : Context) :
  NewHTTPRouterHandle resName actName h w0 = Returned handle w1 →
  chainFor h w0 w r = Ok handler →
  handler (app w) (contextFor resName actName w0 r) = Panicked v c1 →
  handle w r = Panicked v (Ctx.cancel c1).
Proof.
  intros Hb Hc Hrun. rewrite (handle_runs _ _ _ _ _ _ Hb), Hc.
  unfold defer, invoke, bind. by rewrite Hrun.
Qed.

Lemma panic_passes_witness :
  Sample.handleOf Sample.crashing Sample.tagged Sample.tagged Sample.noBody
  = Panicked "nil map"
      (Ctx.cancel
         (state_of
            (nestF [Sample.tag "a"; Sample.tag "b"] (errorHandled Sample.crashing)
                   (app Sample.tagged)
                   (contextFor (H := Sample.platform) "res" "act" Sample.tagged
                               Sample.noBody)))).
Proof.
  apply (panic_passes_through (H := Sample.platform)
           "res" "act" Sample.crashing Sample.tagged Sample.tagged _
           Sample.tagged Sample.noBody
           (nestF [Sample.tag "a"; Sample.tag "b"] (errorHandled Sample.crashing))).
  - reflexivity.
  - reflexivity.
  - vm_compute. reflexivity.
Defined.

(** ** More on the standard error handlers *)

(** X4. When the connection refuses the write, a standard error handler
    logs one error record, with its own message and the write error, and
    returns: the body is not written, the status and the response-written
    flag are set, and nothing is retried. When the write succeeds nothing
    is logged. *)
Theorem failed_write_is_logged_once (c : Context) (e : error) :
  let failed msg we := mkLog LvlError msg [("err", Error we)] in
  Ctx.Logged (state_of (DefaultErrorHandler c e))
  = match Ctx.WriteErr c with
    | Some we =>
        Ctx.Logged c ++ [failed "failed to send default error handler response" we]
    | None => Ctx.Logged c
    end ∧
  Ctx.Logged (state_of (TerseErrorHandler c e))
  = match Ctx.WriteErr c with
    | Some we =>
        Ctx.Logged c ++ [failed "failed to send terse error handler response" we]
    | None => Ctx.Logged c
    end ∧
  Ctx.WriteErr (state_of (DefaultErrorHandler c e)) = Ctx.WriteErr c ∧
  Ctx.WriteErr (state_of (TerseErrorHandler c e)) = Ctx.WriteErr c.
Proof.
  unfold DefaultErrorHandler, TerseErrorHandler, bind, ret, HeaderSet, Respond,
    LogError.
  destruct e as [msg|msg]; simpl;
    destruct (Ctx.WriteErr c) as [we|] eqn:Hwe; simpl; by rewrite ?Hwe.
Qed.

(** X5. On a [BadRequestError], and with a connection that takes the
    write, [TerseErrorHandler] does exactly what [DefaultErrorHandler]
    does. *)
Theorem terse_is_default_on_bad_request (c : Context) (msg : string) :
  Ctx.WriteErr c = None →
  TerseErrorHandler c (BadRequestError msg)
  = DefaultErrorHandler c (BadRequestError msg).
Proof.
  intros Hw.
  unfold DefaultErrorHandler, TerseErrorHandler, bind, ret, HeaderSet, Respond,
    LogError.
  simpl. by rewrite Hw.
Qed.

Lemma terse_is_default_witness :
  let c := contextFor (H := Sample.platform) "res" "act" Sample.tagged Sample.noBody in
  TerseErrorHandler c (BadRequestError "bad id")
  = DefaultErrorHandler c (BadRequestError "bad id").
Proof.
  apply (terse_is_default_on_bad_request
           (contextFor (H := Sample.platform) "res" "act" Sample.tagged Sample.noBody)).
  reflexivity.
Defined.

(** The two handlers part ways when the write fails: the log messages
    differ. *)
Example terse_differs_on_failed_write :
  let c := NewContext (Some (Errorf "broken pipe")) ∅ ∅ VNil in
  TerseErrorHandler c (BadRequestError "bad id")
  ≠ DefaultErrorHandler c (BadRequestError "bad id").
Proof.
  intros c Heq.
  apply (f_equal (fun o => logMsg <$> Ctx.Logged (state_of o))) in Heq.
  vm_compute in Heq. discriminate.
Qed.

(** ** More on configuration *)

Section configuration.
Context `{Platform}.

Lemma calls_app (cs1 cs2 : list Call) (w : World) :
  calls (cs1 ++ cs2) w
  = match calls cs1 w with
    | Returned _ w1 => calls cs2 w1
    | Panicked v w1 => Panicked v w1
    | Exited code w1 => Exited code w1
    end.
Proof.
  revert w. induction cs1 as [|c cs1 IH]; intros w; simpl; [done|].
  unfold bind. destruct (call c w) as [[] w1| |]; [apply IH|done..].
Qed.

(** Configuration calls that return have touched neither the name, nor
    the logger, nor the log. *)
Lemma calls_frame (cs : list Call) : ∀ w w',
  calls cs w = Returned tt w' →
  App.Name (app w') = App.Name (app w) ∧
  App.Logger (app w') = App.Logger (app w) ∧
  Logged w' = Logged w.
Proof.
  induction cs as [|c cs IH]; intros w w'; simpl.
  - by intros [= <-].
  - unfold bind. destruct c as [v|eh]; simpl.
    + destruct (Use v w) as [[] w1| |] eqn:HU; [|done..].
      apply Use_returns in HU as (m & _ & _ & _ & HL & HN & HLg).
      intros Hcs. destruct (IH _ _ Hcs) as (? & ? & ?).
      repeat split; congruence.
    + intros Hcs. by destruct (IH _ _ Hcs) as (? & ? & ?).
Qed.
End configuration.

(** X6. After any configuration calls that return, the error handler of
    the application is the one given to the last [SetErrorHandler], or
    [DefaultErrorHandler] when there was none; the name is the one given to
    [New]; nothing was logged; and the logger of every request context
    carries the application name, the resource and the action, in that
    order. *)
Theorem configuration_result `{Platform}
    (name : string) (cs : list Call) (w : World) :
  calls cs (New name) = Returned tt w →
  App.ErrorHandler (app w) = handlerAfter cs DefaultErrorHandler ∧
  App.Name (app w) = name ∧
  Logged w = [] ∧
  ∀ resName actName (r : Request),
    Ctx.Logger (contextFor resName actName w r)
    = [("app", name); ("ctrl", resName); ("action", actName)].
Proof.
  intros Hcs.
  destruct (reachable _ _ _ Hcs) as (_ & _ & He).
  destruct (calls_frame _ _ _ Hcs) as (Hn & Hl & Hlg).
  repeat split; try done.
  intros resName actName r. unfold contextFor, requestContext. simpl.
  by rewrite Hl.
Qed.

Lemma configuration_witness :
  App.ErrorHandler (app Sample.muted) = Sample.mute ∧
  App.Name (app Sample.muted) = "api" ∧
  Logged Sample.muted = [] ∧
  ∀ resName actName (r : Request),
    Ctx.Logger (contextFor (H := Sample.platform) resName actName Sample.muted r)
    = [("app", "api"); ("ctrl", resName); ("action", actName)].
Proof.
  apply (configuration_result (H := Sample.platform) "api"
           [CallSetErrorHandler Sample.mute] Sample.muted).
  reflexivity.
Defined.

(** X7. A [Use] with a value that is not a middleware stops the
    configuration: the process ends with status 1 after one critical
    record that names the value, and none of the calls after it runs. *)
Theorem invalid_Use_stops_configuration `{Platform}
    (cs1 cs2 : list Call) (repr : string) (w w1 : World) :
  calls cs1 w = Returned tt w1 →
  calls (cs1 ++ CallUse (NotMiddleware repr) :: cs2) w
  = fatal w1 "invalid middleware"
      [("middleware", repr); ("err", "invalid middleware " +:+ repr)].
Proof.
  intros H1. rewrite calls_app, H1. done.
Qed.

Lemma invalid_Use_witness :
  calls (H := Sample.platform)
    ([CallUse (IsMiddleware Sample.deny)]
       ++ CallUse (NotMiddleware "42") :: [CallSetErrorHandler Sample.mute])
    (New "api")
  = fatal Sample.guarded "invalid middleware"
      [("middleware", "42"); ("err", "invalid middleware " +:+ "42")].
Proof.
  apply (invalid_Use_stops_configuration (H := Sample.platform)).
  reflexivity.
Defined.

(** X8. [SetErrorHandler] and [NewHTTPRouterHandle] can be called in either
    order: a handle built before the error handler was set serves a request
    as the handle built after it does. *)
Theorem SetErrorHandler_after_handle `{Platform}
    (name : string) (cs : list Call) resName actName (h : Handler)
    (eh : ErrorHandler) (w0 w1 w1' : World) (handle handle' : Handle) (r : Request) :
  calls cs (New name) = Returned tt w0 →
  NewHTTPRouterHandle resName actName h w0 = Returned handle w1 →
  NewHTTPRouterHandle resName actName h (state_of (SetErrorHandler eh w0))
  = Returned handle' w1' →
  handle (state_of (SetErrorHandler eh w0)) r = handle' w1' r.
Proof.
  intros Hcs Hb Hb'.
  destruct (reachable _ _ _ Hcs) as (_ & Hh & _).
  pose proof (handle_built _ _ _ _ _ _ Hb') as [-> _].
  rewrite (handle_chain _ _ _ _ _ _ _ (registered cs) r Hb); [|done..].
  rewrite (handle_chain _ _ _ _ _ _ _ (registered cs) r Hb'); done.
Qed.

Lemma SetErrorHandler_after_witness :
  Sample.handleOf Sample.failing Sample.tagged
    (state_of (SetErrorHandler TerseErrorHandler Sample.tagged)) Sample.noBody
  = Sample.handleOf Sample.failing
      (state_of (SetErrorHandler TerseErrorHandler Sample.tagged))
      (state_of (SetErrorHandler TerseErrorHandler Sample.tagged)) Sample.noBody.
Proof.
  apply (SetErrorHandler_after_handle (H := Sample.platform) "api"
           [CallUse (IsMiddleware (Sample.tag "a"));
            CallUse (IsMiddleware (Sample.tag "b"))]
           "res" "act" Sample.failing TerseErrorHandler
           Sample.tagged Sample.tagged
           (state_of (SetErrorHandler TerseErrorHandler Sample.tagged))).
  - reflexivity.
  - reflexivity.
  - reflexivity.
Defined.

(** X9. In any configured application, [Use] with a middleware [m]
    returns, leaves the error handler alone, and puts [m] next to the
    terminal handler: a handle built afterwards composes the middleware
    registered before, then [m], then the error-handling wrapper. *)
Theorem Use_adds_innermost `{Platform}
    (name : string) (cs : list Call) (m : Middleware) (h : Handler) (w : World) :
  calls cs (New name) = Returned tt w →
  ∃ (w' : World) (middleware : Func),
    Use (IsMiddleware m) w = Returned tt w' ∧
    App.ErrorHandler (app w') = App.ErrorHandler (app w) ∧
    composed h w' = Ok middleware ∧
    ∀ a : Application,
      middleware a = nest (registered cs) (m (errorHandled h a)).
Proof.
  intros Hcs. destruct (reachable _ _ _ Hcs) as (Hf & Hh & _).
  destruct (Use (IsMiddleware m) w) as [[] w'| |] eqn:HU.
  - pose proof HU as HU'.
    apply Use_returns in HU' as (m' & [= <-] & Happ & He & _).
    destruct (append_holds _ _ _ _ _ _ Hf Hh Happ) as [_ Hh'].
    exists w', (nestF (registered cs ++ [m]) (errorHandled h)).
    repeat split; try done.
    + unfold composed. by apply wrap_holds.
    + intros a. rewrite nestF_apply. unfold nest. by rewrite foldr_app.
  - unfold Use in HU. simpl in HU. by destruct (append _ _ _).
  - unfold Use in HU. simpl in HU. by destruct (append _ _ _).
Qed.

Lemma Use_adds_innermost_witness :
  ∃ (w' : World) (middleware : Func),
    Use (H := Sample.platform) (IsMiddleware Sample.deny) Sample.tagged
    = Returned tt w' ∧
    App.ErrorHandler (app w') = App.ErrorHandler (app Sample.tagged) ∧
    composed Sample.ok w' = Ok middleware ∧
    ∀ a : Application,
      middleware a
      = nest (registered [CallUse (IsMiddleware (Sample.tag "a"));
                          CallUse (IsMiddleware (Sample.tag "b"))])
             (Sample.deny (errorHandled Sample.ok a)).
Proof.
  apply (Use_adds_innermost (H := Sample.platform) "api"
           [CallUse (IsMiddleware (Sample.tag "a"));
            CallUse (IsMiddleware (Sample.tag "b"))]
           Sample.deny Sample.ok Sample.tagged).
  reflexivity.
Defined.

(** ** More on the chain *)

(** X10. When the middleware registered first never calls the handler it
    is given, no middleware registered after it and no terminal handler
    runs, with or without a payload error: the request is what that
    middleware makes of it, followed by the response check. *)
Theorem outermost_short_circuit `{Platform}
    (name : string) (cs : list Call) (m0 : Middleware) (rest : list Middleware)
    (k : Handler) resName actName (h : Handler)
    (w0 w1 : World) (handle : Handle) (r : Request) :
  calls cs (New name) = Returned tt w0 →
  registered cs = m0 :: rest →
  (∀ next, m0 next = k) →
  NewHTTPRouterHandle resName actName h w0 = Returned handle w1 →
  handle w0 r
  = defer Ctx.cancel (k ;;; ensureResponse (app w0))
      (contextFor resName actName w0 r).
Proof.
  intros Hcs Hreg Hk Hb.
  destruct (reachable _ _ _ Hcs) as (_ & Hh & _).
  rewrite (handle_chain _ _ _ _ _ _ _ _ r Hb Hh Hh).
  rewrite Hreg. simpl. by rewrite Hk.
Qed.

Lemma outermost_short_circuit_witness :
  Sample.handleOf Sample.ok Sample.guarded Sample.guarded Sample.badBody
  = defer Ctx.cancel
      (ret (Some (Errorf "denied")) ;;; ensureResponse (app Sample.guarded))
      (contextFor (H := Sample.platform) "res" "act" Sample.guarded Sample.badBody).
Proof.
  apply (outermost_short_circuit (H := Sample.platform) "api"
           [CallUse (IsMiddleware Sample.deny)] Sample.deny []
           (ret (Some (Errorf "denied"))) "res" "act" Sample.ok
           Sample.guarded Sample.guarded).
  - reflexivity.
  - reflexivity.
  - reflexivity.
  - reflexivity.
Defined.

(** X11. An error handler that returns without writing is called a second
    time. With no middleware registered and a handler that fails with
    [e]: the error handler gets [e]; if the response-written flag is still
    false afterwards, it is called again, with "unhandled request". *)
Theorem silent_ErrorHandler_called_twice `{Platform}
    (name : string) (cs : list Call) resName actName (h : Handler)
    (w0 w1 : World) (handle : Handle) (r : Request)
    (e : error) (c1 c2 : Context) :
  calls cs (New name) = Returned tt w0 →
  registered cs = [] →
  NewHTTPRouterHandle resName actName h w0 = Returned handle w1 →
  (loadBody r).2 = None →
  h (contextFor resName actName w0 r) = Returned (Some e) c1 →
  App.ErrorHandler (app w0) c1 e = Returned tt c2 →
  ResponseWritten c2 = false →
  handle w0 r
  = defer Ctx.cancel
      (fun ctx => App.ErrorHandler (app w0) ctx (Errorf "unhandled request")) c2.
Proof.
  intros Hcs Hreg Hb Hl Hh He Hw.
  destruct (reachable _ _ _ Hcs) as (_ & Hholds & _).
  rewrite (handle_chain _ _ _ _ _ _ _ _ r Hb Hholds Hholds).
  rewrite Hreg, Hl. simpl.
  unfold defer, bind, errorHandled, bind, ensureResponse, ret.
  by rewrite Hh, He, Hw.
Qed.

Lemma silent_ErrorHandler_witness :
  let ctx := contextFor (H := Sample.platform) "res" "act" Sample.muted Sample.noBody in
  Sample.handleOf Sample.failing Sample.muted Sample.muted Sample.noBody
  = defer Ctx.cancel
      (fun ctx => App.ErrorHandler (app Sample.muted) ctx (Errorf "unhandled request"))
      ctx.
Proof.
  apply (silent_ErrorHandler_called_twice (H := Sample.platform) "api"
           [CallSetErrorHandler Sample.mute] "res" "act" Sample.failing
           Sample.muted Sample.muted _ Sample.noBody (Errorf "boom")
           (contextFor (H := Sample.platform) "res" "act" Sample.muted Sample.noBody)).
  - reflexivity.
  - reflexivity.
  - reflexivity.
  - reflexivity.
  - reflexivity.
  - reflexivity.
  - reflexivity.
Defined.

Section calm.
Context `{Platform}.

Lemma nest_calm (ms : list Middleware) (inner : Handler) :
  Forall middlewareCalm ms → handlerCalm inner → handlerCalm (nest ms inner).
Proof.
  intros Hms Hin. induction Hms as [|m ms Hm Hms IH]; simpl; [done|].
  by apply Hm.
Qed.

Lemma errorHandled_calm (h : Handler) (a : Application) :
  handlerCalm h → errorHandlerCalm (App.ErrorHandler a) →
  handlerCalm (errorHandled h a).
Proof.
  intros Hh He c. unfold errorHandled, bind, ret.
  specialize (Hh c). destruct (h c) as [[err|] c'| |]; try done.
  specialize (He c' err). by destruct (App.ErrorHandler a c' err).
Qed.

Lemma invalidPayload_calm (err : error) : handlerCalm (invalidPayload err).
Proof.
  intros c. destruct (invalidPayload_writes err c) as (c' & -> & _). done.
Qed.
End calm.

(** X12. The handle adds no panic of its own: in a configured application
    the loops over the chain stay within bounds and call no nil func, at
    build time and at request time, so building a handle returns, and a
    request panics only if the handler, a registered middleware or the
    error handler does. *)
Theorem handle_panics_only_from_user_code `{Platform}
    (name : string) (cs : list Call) resName actName (h : Handler)
    (w0 : World) (r : Request) :
  calls cs (New name) = Returned tt w0 →
  handlerCalm h →
  Forall middlewareCalm (registered cs) →
  errorHandlerCalm (App.ErrorHandler (app w0)) →
  ∃ handle,
    NewHTTPRouterHandle resName actName h w0 = Returned handle w0 ∧
    panics (handle w0 r) = false.
Proof.
  intros Hcs Hh Hms He.
  destruct (reachable _ _ _ Hcs) as (_ & Hholds & _).
  destruct (NewHTTPRouterHandle resName actName h w0) as [handle w1|v w1|] eqn:Hb.
  - pose proof (handle_built _ _ _ _ _ _ Hb) as [-> _].
    exists handle. split; [done|].
    rewrite (handle_chain _ _ _ _ _ _ _ _ r Hb Hholds Hholds).
    assert (Hin : handlerCalm (match (loadBody r).2 with
                               | Some err => invalidPayload err
                               | None => errorHandled h (app w0)
                               end)).
    { destruct (loadBody r).2;
        [apply invalidPayload_calm|by apply errorHandled_calm]. }
    pose proof (nest_calm _ _ Hms Hin (contextFor resName actName w0 r)) as Hn.
    unfold defer, bind, ensureResponse.
    destruct (nest _ _ _) as [e c| |]; try done.
    destruct (ResponseWritten c); [done|].
    specialize (He c (Errorf "unhandled request")).
    by destruct (App.ErrorHandler (app w0) c _).
  - unfold NewHTTPRouterHandle, composed in Hb.
    by rewrite (wrap_holds _ _ _ _ Hholds) in Hb.
  - unfold NewHTTPRouterHandle, composed in Hb.
    by rewrite (wrap_holds _ _ _ _ Hholds) in Hb.
Qed.

Lemma DefaultErrorHandler_calm : errorHandlerCalm DefaultErrorHandler.
Proof.
  intros c e. unfold DefaultErrorHandler, bind, ret, HeaderSet, Respond, LogError.
  destruct e; simpl; by destruct (Ctx.WriteErr c).
Qed.

Lemma Sample_ok_calm : handlerCalm Sample.ok.
Proof.
  intros c. unfold Sample.ok, Sample.note, bind, ret, Respond. simpl.
  by destruct (Ctx.WriteErr c).
Qed.

Lemma Sample_tag_calm (name : string) : middlewareCalm (Sample.tag name).
Proof.
  intros h Hh c. unfold Sample.tag, Sample.note, bind, ret. simpl.
  match goal with |- context [h ?x] => specialize (Hh x); by destruct (h x) end.
Qed.

Lemma handle_panics_witness :
  ∃ handle,
    NewHTTPRouterHandle (H := Sample.platform) "res" "act" Sample.ok Sample.tagged
    = Returned handle Sample.tagged ∧
    panics (handle Sample.tagged Sample.badBody) = false.
Proof.
  apply (handle_panics_only_from_user_code (H := Sample.platform) "api"
           [CallUse (IsMiddleware (Sample.tag "a"));
            CallUse (IsMiddleware (Sample.tag "b"))]
           "res" "act" Sample.ok Sample.tagged Sample.badBody).
  - reflexivity.
  - apply Sample_ok_calm.
  - repeat constructor; apply Sample_tag_calm.
  - apply DefaultErrorHandler_calm.
Defined.

(** ** More on the request context *)

Section params.
Implicit Types (p : list (string * string)) (m : gmap string string).

Lemma params_lookup_notin p : ∀ m (k : string),
  k ∉ p.*1 →
  foldl (fun params param => <[param.1 := param.2]> params) m p !! k = m !! k.
Proof.
  induction p as [|[k' v'] p IH]; intros m k Hk; simpl; [done|].
  simpl in Hk. apply not_elem_of_cons in Hk as [Hne Hk].
  rewrite IH by done. simpl. by rewrite lookup_insert_ne.
Qed.

Lemma params_lookup_None p : ∀ m (k : string),
  foldl (fun params param => <[param.1 := param.2]> params) m p !! k = None
  ↔ m !! k = None ∧ k ∉ p.*1.
Proof.
  induction p as [|[k' v'] p IH]; intros m k; simpl.
  - split; [intros Hm; split; [done|apply not_elem_of_nil]|by intros [? _]].
  - rewrite IH. simpl. rewrite lookup_insert_None, not_elem_of_cons.
    intuition congruence.
Qed.
End params.

(** X13. The path parameters of the context: a name that the router did
    not report is absent from the map, and of several values reported for
    one name the last one is kept. *)
Theorem path_params_last_wins `{Platform}
    resName actName (w0 : World) (r : Request) (k : string) :
  (Ctx.Params (contextFor resName actName w0 r) !! k = None
   ↔ k ∉ (PathParams r).*1) ∧
  ∀ p1 v p2,
    PathParams r = p1 ++ (k, v) :: p2 →
    k ∉ p2.*1 →
    Ctx.Params (contextFor resName actName w0 r) !! k = Some v.
Proof.
  unfold contextFor, requestContext, loadParams. simpl. split.
  - rewrite params_lookup_None. rewrite lookup_empty. intuition.
  - intros p1 v p2 -> Hk. rewrite foldl_app. simpl.
    rewrite params_lookup_notin by done. apply lookup_insert_eq.
Qed.

Lemma path_params_witness :
  Ctx.Params (contextFor (H := Sample.platform) "res" "act" Sample.tagged
                         Sample.withParams) !! "id"
  = Some "2".
Proof.
  apply (proj2 (path_params_last_wins (H := Sample.platform) "res" "act"
                  Sample.tagged Sample.withParams "id")
               [("id", "1")] "2" []).
  - reflexivity.
  - simpl. apply not_elem_of_nil.
Defined.

(** X14. The query parameters of the context are those of the request
    URL: the same names, each with the same values in the same order. *)
Theorem query_is_copied `{Platform}
    resName actName (w0 : World) (r : Request) :
  Ctx.Query (contextFor resName actName w0 r) = URLQuery r.
Proof.
  unfold contextFor, requestContext. simpl. apply loadQuery_copy.
Qed.

Example query_of_sample :
  Ctx.Query (contextFor (H := Sample.platform) "res" "act" Sample.tagged
                        Sample.withParams) !! "q"
  = Some ["x"; "y"].
Proof. vm_compute. reflexivity. Qed.
